(** * fireflies_downloader: a shallow embedding of [fireflies_downloader.py]

    The script walks a remote transcript listing backwards in time, fetches
    the detail of every transcript it has not saved yet and writes one JSON
    file per transcript.  The development below translates the three methods
    of [FirefliesDownloader] and [main] into functions over an explicit
    remote service, an explicit output directory and an event log, and then
    states what the loop does.

    Modelling conventions.
    - A Python value obtained from JSON is a [json]; [JNull] is [None].
      Numbers are the integral ones.
    - A character is a code point below 256 (an [ascii]); [str.isalnum] and
      the blanks that [int] strips are tabulated on that range.
    - A naive [datetime] is a count of milliseconds, so the float division
      of line 160 is exact; the local zone is given with the host as the
      offset from UTC at each instant.  The year range of [datetime] is not
      enforced; [%Y] is printed as glibc prints it, without padding.
    - The remote service is a function of the query variables: asked twice
      the same thing, it answers the same.
    - A file is either text that [json.load] reads back as the value that
      was dumped, or unreadable.  A write fails when the object cannot be
      encoded (strings here cannot hold the lone surrogates that make
      [json.dump] fail, so the host says which objects can be written); it
      then leaves the file cut short.  Opening and listing do not fail.
    - An exception that leaves a function is a [Raise], and the state reached
      so far is kept; the [while True] loop takes fuel.
    - Console output is kept as an event log where a statement needs it,
      with one entry that the console does not show, for a write cut short;
      the set [existing_files], filled but never read, and the calls to
      [time.sleep] are left out.

    Layout: the Python primitives ([Py]), dates ([Datetime]), the script
    ([Downloader]), auxiliary definitions and sample data, then the lemmas
    and the theorems. *)

From Stdlib Require Import ZArith List String Ascii Bool Lia Permutation.
Import ListNotations.

Set Warnings "-register-all".

Local Open Scope string_scope.
Local Open Scope Z_scope.

(** ** Exceptions *)

Inductive exn : Type :=
| KeyError (key : string)
| TypeError
| ValueError
| AttributeError
| UnicodeEncodeError.

Inductive res (A : Type) : Type :=
| Ok (a : A)
| Raise (e : exn).

Arguments Ok {A} a.
Arguments Raise {A} e.

Definition bind {A B : Type} (m : res A) (k : A -> res B) : res B :=
  match m with
  | Ok a => k a
  | Raise e => Raise e
  end.

Notation "x <~ m ;; k" := (bind m (fun x => k))
  (at level 61, m at next level, right associativity).

(** ** Python values *)

Module Py.

Inductive json : Type :=
| JNull
| JBool (b : bool)
| JInt (n : Z)
| JStr (s : string)
| JArr (items : list json)
| JObj (fields : list (string * json)).

(** [bool(v)], as used by [if content:], [if not result], [if not transcripts]. *)
Definition truthy (v : json) : bool :=
  match v with
  | JNull => false
  | JBool b => b
  | JInt n => negb (n =? 0)
  | JStr s => negb (s =? "")%string
  | JArr items => match items with [] => false | _ => true end
  | JObj fields => match fields with [] => false | _ => true end
  end.

Fixpoint lookup (k : string) (fields : list (string * json)) : option json :=
  match fields with
  | [] => None
  | (k', v) :: rest => if (k =? k')%string then Some v else lookup k rest
  end.

(** [v[k]] for a string key. *)
Definition getitem (v : json) (k : string) : res json :=
  match v with
  | JObj fields =>
      match lookup k fields with
      | Some x => Ok x
      | None => Raise (KeyError k)
      end
  | _ => Raise TypeError
  end.

(** Numbers and booleans compare by value ([True == 1]). *)
Definition as_number (v : json) : option Z :=
  match v with
  | JBool b => Some (if b then 1 else 0)
  | JInt n => Some n
  | _ => None
  end.

(** [a == b] on hashable values. *)
Definition eqb (a b : json) : bool :=
  match as_number a, as_number b with
  | Some x, Some y => x =? y
  | _, _ =>
      match a, b with
      | JNull, JNull => true
      | JStr s, JStr t => (s =? t)%string
      | _, _ => false
      end
  end.

Definition hashable (v : json) : bool :=
  match v with
  | JArr _ | JObj _ => false
  | _ => true
  end.

(** A Python [set] of hashable values, kept as a list. *)
Definition pyset : Type := list json.

Definition mem (v : json) (s : pyset) : bool := existsb (eqb v) s.

(** [v in s]: unhashable operands raise. *)
Definition set_contains (v : json) (s : pyset) : res bool :=
  if hashable v then Ok (mem v s) else Raise TypeError.

(** [s.add(v)] *)
Definition set_add (v : json) (s : pyset) : res pyset :=
  if hashable v then Ok (if mem v s then s else (s ++ [v])%list) else Raise TypeError.

Fixpoint prefix_of (p s : string) : bool :=
  match p, s with
  | EmptyString, _ => true
  | String a p', String b s' => (Ascii.eqb a b) && prefix_of p' s'
  | String _ _, EmptyString => false
  end.

Fixpoint substring_of (p s : string) : bool :=
  prefix_of p s ||
  match s with
  | EmptyString => false
  | String _ s' => substring_of p s'
  end.

(** [k in v] for a string [k]: key of a dict, element of a list, substring
    of a string; anything else is not iterable. *)
Definition contains (k : string) (v : json) : res bool :=
  match v with
  | JObj fields => Ok (match lookup k fields with Some _ => true | None => false end)
  | JArr items => Ok (existsb (eqb (JStr k)) items)
  | JStr s => Ok (substring_of k s)
  | _ => Raise TypeError
  end.

(** Iteration ([for x in v]): elements, keys, or characters. *)
Fixpoint chars (s : string) : list string :=
  match s with
  | EmptyString => []
  | String c s' => String c EmptyString :: chars s'
  end.

Definition iter (v : json) : res (list json) :=
  match v with
  | JArr items => Ok items
  | JObj fields => Ok (map (fun kv => JStr (fst kv)) fields)
  | JStr s => Ok (map JStr (chars s))
  | _ => Raise TypeError
  end.

(** *** Characters *)

Definition code (c : ascii) : Z := Z.of_nat (nat_of_ascii c).

Definition between (lo hi x : Z) : bool := (lo <=? x) && (x <=? hi).

Definition is_decimal (c : ascii) : bool := between 48 57 (code c).

(** [c.isalnum()] for one code point below 256. *)
Definition char_isalnum (c : ascii) : bool :=
  let n := code c in
  between 48 57 n || between 65 90 n || between 97 122 n
  || (n =? 170) || (n =? 178) || (n =? 179) || (n =? 181)
  || (n =? 185) || (n =? 186) || between 188 190 n
  || between 192 214 n || between 216 246 n || between 248 255 n.

(** The blanks [int] strips from both ends of a string. *)
Definition char_isspace (c : ascii) : bool :=
  let n := code c in
  between 9 13 n || (n =? 32) || (n =? 133) || (n =? 160).

Fixpoint all_chars (p : ascii -> bool) (s : string) : bool :=
  match s with
  | EmptyString => true
  | String c s' => p c && all_chars p s'
  end.

(** [s.isalnum()]: every character alphanumeric and at least one character. *)
Definition str_isalnum (s : string) : bool :=
  match s with
  | EmptyString => false
  | _ => all_chars char_isalnum s
  end.

(** *** [int(v)] *)

Fixpoint lstrip (s : string) : string :=
  match s with
  | String c s' => if char_isspace c then lstrip s' else s
  | EmptyString => EmptyString
  end.

Fixpoint rstrip (s : string) : string :=
  match s with
  | EmptyString => EmptyString
  | String c s' =>
      match rstrip s' with
      | EmptyString => if char_isspace c then EmptyString else String c EmptyString
      | t => String c t
      end
  end.

(** Decimal digits with single underscores between digits. *)
Fixpoint digits (s : string) (acc : Z) (after_digit : bool) : option Z :=
  match s with
  | EmptyString => if after_digit then Some acc else None
  | String c s' =>
      if is_decimal c then digits s' (10 * acc + (code c - 48)) true
      else if Ascii.eqb c "_"%char && after_digit then digits s' acc false
      else None
  end.

Definition parse_int (s : string) : option Z :=
  match rstrip (lstrip s) with
  | String "-"%char t => option_map Z.opp (digits t 0 false)
  | String "+"%char t => digits t 0 false
  | t => digits t 0 false
  end.

Definition int (v : json) : res Z :=
  match v with
  | JInt n => Ok n
  | JBool b => Ok (if b then 1 else 0)
  | JStr s => match parse_int s with Some n => Ok n | None => Raise ValueError end
  | _ => Raise TypeError
  end.

End Py.

Import Py.

(** ** Naive datetimes *)

Module Datetime.

(** Milliseconds on the local wall clock, counted from 1970-01-01T00:00:00. *)
Definition datetime : Type := Z.

(** [datetime.fromtimestamp(ms / 1000)] in a zone that is [utcoffset ms]
    seconds east of UTC at that instant. *)
Definition fromtimestamp (utcoffset : Z -> Z) (ms : Z) : datetime :=
  ms + 1000 * utcoffset ms.

(** [d - timedelta(seconds=n)] *)
Definition sub_seconds (d : datetime) (n : Z) : datetime := d - 1000 * n.

(** Proleptic Gregorian date of a day number (days since 1970-01-01). *)
Definition civil_from_days (days : Z) : Z * Z * Z :=
  let z := days + 719468 in
  let era := z / 146097 in
  let doe := z - era * 146097 in
  let yoe := (doe - doe / 1460 + doe / 36524 - doe / 146096) / 365 in
  let doy := doe - (365 * yoe + yoe / 4 - yoe / 100) in
  let mp := (5 * doy + 2) / 153 in
  let d := doy - (153 * mp + 2) / 5 + 1 in
  let m := if mp <? 10 then mp + 3 else mp - 9 in
  let y := yoe + era * 400 + (if m <=? 2 then 1 else 0) in
  (y, m, d).

Definition digit_char (n : Z) : ascii := ascii_of_nat (Z.to_nat (48 + n mod 10)).

(** The last [width] decimal digits of [n], zero padded. *)
Fixpoint dec (width : nat) (n : Z) : string :=
  match width with
  | O => EmptyString
  | S w => dec w (n / 10) ++ String (digit_char n) EmptyString
  end.

(** The decimal digits of [n], most significant first. *)
Fixpoint decimal (fuel : nat) (n : Z) : string :=
  match fuel with
  | O => EmptyString
  | S fuel' =>
      (if n <? 10 then EmptyString else decimal fuel' (n / 10))
      ++ String (digit_char n) EmptyString
  end.

(** [%Y]: the year in decimal, not padded ([702], not [0702]). *)
Definition year_text (y : Z) : string := decimal (S (Z.to_nat (Z.log2 y))) y.

(** [d.strftime("%Y-%m-%d")] *)
Definition strftime_date (d : datetime) : string :=
  let '(y, m, dd) := civil_from_days (d / 86400000) in
  year_text y ++ "-" ++ dec 2 m ++ "-" ++ dec 2 dd.

(** [d.strftime("%Y-%m-%dT%H:%M:%S.000Z")]: whole seconds, the fraction is
    the literal [.000]. *)
Definition strftime_iso (d : datetime) : string :=
  let s := (d / 1000) mod 86400 in
  strftime_date d ++ "T" ++ dec 2 (s / 3600) ++ ":" ++ dec 2 ((s / 60) mod 60)
    ++ ":" ++ dec 2 (s mod 60) ++ ".000Z".

End Datetime.

Import Datetime.

(** ** The downloader *)

Module Downloader.

(** *** The world outside the process *)

(** What [requests.post] gives back.  [RequestException] stands for every
    transport failure; a [Response] whose body is [None] is one whose
    [.json()] fails, which [requests] reports as a [RequestException] too. *)
Inductive http_result : Type :=
| RequestException
| Response (status_code : Z) (body : option json).

(** The GraphQL service as seen through the two queries (keyed by the query
    variables), the clock, the local zone, and which objects [json.dump] can
    encode. *)
Record Host : Type := {
  list_endpoint : Z -> option string -> http_result;
  detail_endpoint : json -> http_result;
  now : datetime;
  utcoffset : Z -> Z;
  encodable : json -> bool
}.

(** A file of the output directory: text that [json.load] accepts, or
    anything else. *)
Inductive file : Type :=
| Text (v : json)
| Unreadable.

(** The output directory in [os.listdir] order.  A missing directory and an
    empty one are not told apart: [save_transcripts] creates it, and [main]
    skips both. *)
Definition directory : Type := list (string * file).

Inductive event : Type :=
| ListQuery (limit : Z) (toDate : option string)
| DetailQuery (id : json)
| Skipping (transcript : json)
| Saved (filename : string) (transcript : json)
| Truncated (filename : string)
| ErrorReadingFiles (e : exn)
| MissingApiKey.

Record state : Type := {
  files : directory;
  log : list event
}.

(** *** State and exceptions *)

Definition M (A : Type) : Type := state -> res A * state.

Definition ret {A : Type} (a : A) : M A := fun s => (Ok a, s).

(** An exception ends the computation; what was written and printed before
    it stays. *)
Definition bindM {A B : Type} (m : M A) (k : A -> M B) : M B :=
  fun s =>
    match m s with
    | (Ok a, s') => k a s'
    | (Raise e, s') => (Raise e, s')
    end.

Definition lift {A : Type} (r : res A) : M A := fun s => (r, s).

Definition emit (e : event) : M unit :=
  fun s => (Ok tt, {| files := files s; log := (log s ++ [e])%list |}).

Notation "x <- m ;; k" := (bindM m (fun x => k))
  (at level 61, m at next level, right associativity).
Notation "m1 ;;; m2" := (bindM m1 (fun _ => m2))
  (at level 61, right associativity).

(** *** File system *)

Fixpoint write_file (name : string) (v : json) (d : directory) : directory :=
  match d with
  | [] => [(name, Text v)]
  | (n, f) :: rest =>
      if (n =? name)%string then (n, Text v) :: rest
      else (n, f) :: write_file name v rest
  end.

Fixpoint read_file (name : string) (d : directory) : option file :=
  match d with
  | [] => None
  | (n, f) :: rest => if (n =? name)%string then Some f else read_file name rest
  end.

(** What [open(filepath, 'w')] leaves when the write stops part-way: a file
    of that name that is not JSON. *)
Fixpoint truncate_file (name : string) (d : directory) : directory :=
  match d with
  | [] => [(name, Unreadable)]
  | (n, f) :: rest =>
      if (n =? name)%string then (n, Unreadable) :: rest
      else (n, f) :: truncate_file name rest
  end.

(** [open(filepath, 'w')] followed by [json.dump].  An object that cannot
    be encoded raises in the middle of the write. *)
Definition dump (h : Host) (name : string) (v : json) : M unit :=
  fun s =>
    if encodable h v then
      (Ok tt, {| files := write_file name v (files s); log := log s |})
    else
      (Raise UnicodeEncodeError,
       {| files := truncate_file name (files s);
          log := (log s ++ [Truncated name])%list |}).

(** [json.load] *)
Definition load (f : file) : res json :=
  match f with
  | Text v => Ok v
  | Unreadable => Raise ValueError
  end.

Definition rev_string (s : string) : string :=
  string_of_list_ascii (rev (list_ascii_of_string s)).

(** [name.endswith(suffix)] *)
Definition endswith (name suffix : string) : bool :=
  prefix_of (rev_string suffix) (rev_string name).

(** *** [get_transcript_content] *)

Definition get_transcript_content (h : Host) (transcript_id : json) : M json :=
  emit (DetailQuery transcript_id) ;;;
  match detail_endpoint h transcript_id with
  | RequestException => ret JNull
  | Response status_code body =>
      if negb (status_code =? 200) then ret JNull
      else
        match body with
        | None => ret JNull
        | Some data =>
            has_errors <- lift (contains "errors" data) ;;
            if has_errors then
              _ <- lift (getitem data "errors") ;;
              ret JNull
            else
              d <- lift (getitem data "data") ;;
              lift (getitem d "transcript")
        end
  end.

(** *** [get_transcripts] *)

(** The [variables] dictionary of the listing query. *)
Definition variables (limit : Z) (to_date : option datetime) : Z * option string :=
  (Z.min limit 25, option_map strftime_iso to_date).

Definition get_transcripts (h : Host) (limit : Z) (to_date : option datetime) : M json :=
  let vars := variables limit to_date in
  emit (ListQuery (fst vars) (snd vars)) ;;;
  match list_endpoint h (fst vars) (snd vars) with
  | RequestException => ret JNull
  | Response _ None => ret JNull
  | Response _ (Some data) =>
      has_errors <- lift (contains "errors" data) ;;
      if has_errors then
        _ <- lift (getitem data "errors") ;;
        ret JNull
      else ret data
  end.

(** *** [save_transcripts] *)

(** One turn of the scan of lines 121-129: the [try] is inside the [for],
    so a file that cannot be used leaves the set as it was. *)
Definition scan_file (entry : string * file) (existing_ids : pyset) : pyset :=
  if endswith (fst entry) ".json" then
    match (data <~ load (snd entry) ;;
           id <~ getitem data "id" ;;
           set_add id existing_ids) with
    | Ok ids => ids
    | Raise _ => existing_ids
    end
  else existing_ids.

Fixpoint scan_ids (d : directory) (existing_ids : pyset) : pyset :=
  match d with
  | [] => existing_ids
  | entry :: rest => scan_ids rest (scan_file entry existing_ids)
  end.

(** [''.join(c for c in title if c.isalnum() or c in (' ', '-', '_', '.'))]
    over the items of the iteration. *)
Definition allowed (c : string) : bool :=
  str_isalnum c
  || (c =? " ")%string || (c =? "-")%string || (c =? "_")%string || (c =? ".")%string.

Fixpoint join_allowed (items : list json) : res string :=
  match items with
  | [] => Ok ""
  | JStr c :: rest =>
      tail <~ join_allowed rest ;;
      Ok (if allowed c then c ++ tail else tail)
  | _ :: _ => Raise AttributeError
  end.

Definition safe_title (title : json) : res string :=
  items <~ iter title ;;
  join_allowed items.

(** [s[:n]] *)
Fixpoint take (n : nat) (s : string) : string :=
  match n, s with
  | S n', String c s' => String c (take n' s')
  | _, _ => EmptyString
  end.

Definition track (date_obj : datetime) (earliest_date : option datetime) : option datetime :=
  match earliest_date with
  | None => Some date_obj
  | Some e => if date_obj <? e then Some date_obj else Some e
  end.

(** The body of the [for transcript in transcripts] loop, lines 147-175. *)
Definition save_one (h : Host) (existing_ids : pyset) (transcript : json)
    (earliest_date : option datetime) : M (option datetime) :=
  id <- lift (getitem transcript "id") ;;
  present <- lift (set_contains id existing_ids) ;;
  if present then
    _ <- lift (getitem transcript "title") ;;
    emit (Skipping transcript) ;;;
    ret earliest_date
  else
    _ <- lift (getitem transcript "title") ;;
    content <- get_transcript_content h id ;;
    let transcript := if truthy content then content else transcript in
    date <- lift (getitem transcript "date") ;;
    millis <- lift (Py.int date) ;;
    let date_obj := fromtimestamp (utcoffset h) millis in
    title <- lift (getitem transcript "title") ;;
    safe <- lift (safe_title title) ;;
    let filename := strftime_date date_obj ++ "_" ++ take 50 safe ++ ".json" in
    dump h filename transcript ;;;
    emit (Saved filename transcript) ;;;
    ret (track date_obj earliest_date).

Fixpoint save_page (h : Host) (existing_ids : pyset) (transcripts : list json)
    (earliest_date : option datetime) : M (option datetime) :=
  match transcripts with
  | [] => ret earliest_date
  | transcript :: rest =>
      e <- save_one h existing_ids transcript earliest_date ;;
      save_page h existing_ids rest e
  end.

(** [not result or "data" not in result or "transcripts" not in result["data"]] *)
Definition no_more (result : json) : res bool :=
  if negb (truthy result) then Ok true
  else
    has_data <~ contains "data" result ;;
    if negb has_data then Ok true
    else
      d <~ getitem result "data" ;;
      has_transcripts <~ contains "transcripts" d ;;
      Ok (negb has_transcripts).

(** One turn of the [while True] loop, lines 133-182: the next [last_date],
    or [None] at a [break]. *)
Definition save_batch (h : Host) (existing_ids : pyset) (last_date : datetime)
    : M (option datetime) :=
  result <- get_transcripts h 25 (Some last_date) ;;
  stop <- lift (no_more result) ;;
  if stop then ret None
  else
    d <- lift (getitem result "data") ;;
    transcripts <- lift (getitem d "transcripts") ;;
    if negb (truthy transcripts) then ret None
    else
      items <- lift (iter transcripts) ;;
      earliest_date <- save_page h existing_ids items None ;;
      match earliest_date with
      | Some e => ret (Some (sub_seconds e 1))
      | None => ret None
      end.

(** How a run ends: the loop left by [break], an exception that nothing
    catches, or the fuel spent with the loop still turning. *)
Inductive run : Type :=
| Finished (s : state)
| Crashed (e : exn) (s : state)
| Turning (last_date : datetime) (s : state).

Fixpoint backfill (fuel : nat) (h : Host) (existing_ids : pyset)
    (last_date : datetime) (s : state) : run :=
  match fuel with
  | O => Turning last_date s
  | S fuel' =>
      match save_batch h existing_ids last_date s with
      | (Raise e, s') => Crashed e s'
      | (Ok None, s') => Finished s'
      | (Ok (Some next), s') => backfill fuel' h existing_ids next s'
      end
  end.

Definition save_transcripts (fuel : nat) (h : Host) (to_date : option datetime)
    (s : state) : run :=
  let existing_ids := scan_ids (files s) [] in
  let last_date := match to_date with Some d => d | None => now h end in
  backfill fuel h existing_ids last_date s.

(** *** [main] *)

(** The date a saved file carries, line 200-202. *)
Definition file_date (h : Host) (f : file) : res datetime :=
  data <~ load f ;;
  date <~ getitem data "date" ;;
  millis <~ Py.int date ;;
  Ok (fromtimestamp (utcoffset h) millis).

(** The scan of lines 197-204.  The [try] is around the [for]: the first
    file that raises ends the scan, and [earliest_date] keeps the value it
    had then. *)
Fixpoint scan_dates (h : Host) (d : directory) (earliest_date : option datetime)
    : option datetime * option exn :=
  match d with
  | [] => (earliest_date, None)
  | (name, f) :: rest =>
      if endswith name ".json" then
        match file_date h f with
        | Ok date => scan_dates h rest (track date earliest_date)
        | Raise e => (earliest_date, Some e)
        end
      else scan_dates h rest earliest_date
  end.

Definition main (fuel : nat) (h : Host) (api_key : option string) (s : state) : run :=
  match api_key with
  | None | Some EmptyString =>
      Finished {| files := files s; log := (log s ++ [MissingApiKey])%list |}
  | Some _ =>
      let scanned := scan_dates h (files s) None in
      let s' :=
        match snd scanned with
        | Some e => {| files := files s; log := (log s ++ [ErrorReadingFiles e])%list |}
        | None => s
        end in
      save_transcripts fuel h (fst scanned) s'
  end.

(** [s[n:]] *)
Fixpoint drop (n : nat) (s : string) : string :=
  match n, s with
  | S n', String _ s' => drop n' s'
  | _, _ => s
  end.

(** [s[-n:]] for a positive [n]: the whole string when it is shorter. *)
Definition last_chars (n : nat) (s : string) : string :=
  drop (String.length s - n) s.

(** The line [main] prints once it has a key, line 190. *)
Definition api_key_banner (api_key : string) : string :=
  "Using API key: " ++ take 5 api_key ++ "..." ++ last_chars 5 api_key.

End Downloader.

Import Downloader.

(** ** Auxiliary definitions for the statements *)

(** What [get_transcript_content] makes of the reply, without the log. *)
Definition decode_detail (r : http_result) : res json :=
  match r with
  | RequestException => Ok JNull
  | Response status_code body =>
      if negb (status_code =? 200) then Ok JNull
      else
        match body with
        | None => Ok JNull
        | Some data =>
            has_errors <~ contains "errors" data ;;
            if has_errors then
              _ <~ getitem data "errors" ;;
              Ok JNull
            else
              d <~ getitem data "data" ;;
              getitem d "transcript"
        end
  end.

(** What [get_transcripts] makes of the reply, without the log. *)
Definition decode_listing (r : http_result) : res json :=
  match r with
  | RequestException => Ok JNull
  | Response _ None => Ok JNull
  | Response _ (Some data) =>
      has_errors <~ contains "errors" data ;;
      if has_errors then
        _ <~ getitem data "errors" ;;
        Ok JNull
      else Ok data
  end.


(** The object that line 156-157 leaves in [transcript]. *)
Definition persisted (content transcript : json) : json :=
  if truthy content then content else transcript.

(** File name and save timestamp of the object to write, lines 160-162. *)
Definition name_and_date (h : Host) (obj : json) : res (string * datetime) :=
  date <~ getitem obj "date" ;;
  millis <~ Py.int date ;;
  title <~ getitem obj "title" ;;
  safe <~ safe_title title ;;
  let date_obj := fromtimestamp (utcoffset h) millis in
  Ok (strftime_date date_obj ++ "_" ++ take 50 safe ++ ".json", date_obj).

Definition add_event (e : event) (s : state) : state :=
  {| files := files s; log := (log s ++ [e])%list |}.

(** The directory after the writes recorded in a stretch of the log. *)
Fixpoint replay (evs : list event) (d : directory) : directory :=
  match evs with
  | [] => d
  | Saved name obj :: rest => replay rest (write_file name obj d)
  | Truncated name :: rest => replay rest (truncate_file name d)
  | _ :: rest => replay rest d
  end.

(** The characters the title keeps. *)
Definition retained (c : ascii) : bool :=
  char_isalnum c
  || Ascii.eqb c " " || Ascii.eqb c "-" || Ascii.eqb c "_" || Ascii.eqb c ".".

Fixpoint retain (s : string) : string :=
  match s with
  | EmptyString => EmptyString
  | String c s' => if retained c then String c (retain s') else retain s'
  end.

(** What lines 134-141 make of a listing result: [None] at a [break], else
    the records to walk. *)
Definition decode_page (result : json) : res (option (list json)) :=
  stop <~ no_more result ;;
  if stop then Ok None
  else
    d <~ getitem result "data" ;;
    transcripts <~ getitem d "transcripts" ;;
    if negb (truthy transcripts) then Ok None
    else
      items <~ iter transcripts ;;
      Ok (Some items).

(** The page the service gives for a watermark. *)
Definition page_of (h : Host) (last_date : datetime) : res (option (list json)) :=
  result <~ decode_listing (list_endpoint h 25 (Some (strftime_iso last_date))) ;;
  decode_page result.

(** The save timestamps recorded in a stretch of the log. *)
Fixpoint dates (h : Host) (evs : list event) : list datetime :=
  match evs with
  | [] => []
  | Saved _ obj :: rest =>
      match name_and_date h obj with
      | Ok (_, d) => d :: dates h rest
      | Raise _ => dates h rest
      end
  | _ :: rest => dates h rest
  end.

(** A skip or a fetch that agrees with the set [ids]. *)
Definition decided (ids : pyset) (ev : event) : Prop :=
  match ev with
  | Skipping t => exists id, getitem t "id" = Ok id /\ mem id ids = true
  | DetailQuery id => mem id ids = false
  | _ => True
  end.

(** The id a directory entry gives to the Existing-ID Set, if any. *)
Definition file_id (entry : string * file) : option json :=
  if endswith (fst entry) ".json" then
    match (data <~ load (snd entry) ;; getitem data "id") with
    | Ok id => if hashable id then Some id else None
    | Raise _ => None
    end
  else None.

(** The dates of the [.json] files that can be read. *)
Fixpoint valid_dates (h : Host) (d : directory) : list datetime :=
  match d with
  | [] => []
  | (name, f) :: rest =>
      if endswith name ".json" then
        match file_date h f with
        | Ok date => date :: valid_dates h rest
        | Raise _ => valid_dates h rest
        end
      else valid_dates h rest
  end.

(** Every [.json] file can be read and carries a date. *)
Definition all_dated (h : Host) (d : directory) : bool :=
  forallb (fun entry : string * file =>
             if endswith (fst entry) ".json" then
               match file_date h (snd entry) with Ok _ => true | Raise _ => false end
             else true) d.

(** The file names written, whole or cut short, in a stretch of the log. *)
Fixpoint saved_names (evs : list event) : list string :=
  match evs with
  | [] => []
  | Saved name _ :: rest => name :: saved_names rest
  | Truncated name :: rest => name :: saved_names rest
  | _ :: rest => saved_names rest
  end.



(** What every listing query and every write of the loop looks like: the
    query asks for 25 records up to a rendered watermark, the file is named
    after the date and the title of the object it holds. *)
Definition shaped (h : Host) (ev : event) : Prop :=
  match ev with
  | ListQuery limit toDate =>
      limit = 25 /\ exists d, toDate = Some (strftime_iso d)
  | Saved name obj => exists d, name_and_date h obj = Ok (name, d)
  | Truncated name => exists obj d, name_and_date h obj = Ok (name, d)
  | _ => True
  end.

(** A log entry that is not a write cut short. *)
Definition intact (ev : event) : Prop :=
  match ev with
  | Truncated _ => False
  | _ => True
  end.

(** The replies to the listing query at which the loop stops without
    walking a page. *)
Inductive end_of_data : http_result -> Prop :=
| eod_transport : end_of_data RequestException
| eod_not_json (status : Z) : end_of_data (Response status None)
| eod_errors (status : Z) (env : list (string * json)) (errs : json) :
    lookup "errors" env = Some errs ->
    end_of_data (Response status (Some (JObj env)))
| eod_no_data (status : Z) (env : list (string * json)) :
    lookup "errors" env = None ->
    lookup "data" env = None ->
    end_of_data (Response status (Some (JObj env)))
| eod_no_transcripts (status : Z) (env dat : list (string * json)) :
    lookup "errors" env = None ->
    lookup "data" env = Some (JObj dat) ->
    lookup "transcripts" dat = None ->
    end_of_data (Response status (Some (JObj env)))
| eod_empty (status : Z) (env dat : list (string * json)) (transcripts : json) :
    lookup "errors" env = None ->
    lookup "data" env = Some (JObj dat) ->
    lookup "transcripts" dat = Some transcripts ->
    truthy transcripts = false ->
    end_of_data (Response status (Some (JObj env))).

(** The ids the [.json] files of a directory give, in listing order. *)
Fixpoint ids_of (d : directory) : list json :=
  match d with
  | [] => []
  | entry :: rest =>
      match file_id entry with
      | Some i => i :: ids_of rest
      | None => ids_of rest
      end
  end.

(** No two members are equal in the sense of [==]. *)
Fixpoint distinct (ids : list json) : bool :=
  match ids with
  | [] => true
  | i :: rest => negb (mem i rest) && distinct rest
  end.

(** What the last write under a name left, going by the log: the object
    saved, or a file cut short. *)
Fixpoint last_write (name : string) (evs : list event) : option file :=
  match evs with
  | [] => None
  | Saved n obj :: rest =>
      match last_write name rest with
      | Some later => Some later
      | None => if (n =? name)%string then Some (Text obj) else None
      end
  | Truncated n :: rest =>
      match last_write name rest with
      | Some later => Some later
      | None => if (n =? name)%string then Some Unreadable else None
      end
  | _ :: rest => last_write name rest
  end.

(** The state a run stopped in, however it stopped. *)
Definition state_of (r : run) : state :=
  match r with
  | Finished s => s
  | Crashed _ s => s
  | Turning _ s => s
  end.

(** ** Sample services and directories *)

Module Sample.

Definition summary (id title : string) (date : json) : json :=
  JObj [("title", JStr title); ("id", JStr id); ("date", date)].


Definition envelope (records : list json) : http_result :=
  Response 200 (Some (JObj [("data", JObj [("transcripts", JArr records)])])).


Definition review : json := summary "a" "Q&A: Plan/Review?" (JInt 1700000000500).
Definition weekly : json := summary "b" "Weekly" (JStr "1690000000000").
Definition kickoff : json := summary "c" "Kickoff" (JInt 1680000000000).

(** 2023-12-01T00:00:00 *)
Definition december : datetime := 1701388800000.

Definition empty : state := {| files := []; log := [] |}.

(** Two pages, one record each; the detail is never available. *)
Definition two_pages : Host := {|
  list_endpoint := fun _ toDate =>
    match toDate with
    | Some "2023-12-01T00:00:00.000Z" => envelope [review]
    | Some "2023-11-14T22:13:19.000Z" => envelope [weekly]
    | _ => envelope []
    end;
  detail_endpoint := fun _ => Response 500 None;
  now := december;
  utcoffset := fun _ => 0;
  encodable := fun _ => true
|}.

(** The directory a run over [two_pages] leaves when it stops after the
    first record. *)
Definition has_review : state :=
  {| files := [("2023-11-14_QA PlanReview.json", Text review)]; log := [] |}.

(** The log and the directory of a whole run over [two_pages]. *)
Definition two_pages_log : list event :=
  [ListQuery 25 (Some "2023-12-01T00:00:00.000Z");
   DetailQuery (JStr "a");
   Saved "2023-11-14_QA PlanReview.json" review;
   ListQuery 25 (Some "2023-11-14T22:13:19.000Z");
   DetailQuery (JStr "b");
   Saved "2023-07-22_Weekly.json" weekly;
   ListQuery 25 (Some "2023-07-22T04:26:39.000Z")].

Definition after_two_pages : state :=
  {| files := [("2023-11-14_QA PlanReview.json", Text review);
               ("2023-07-22_Weekly.json", Text weekly)];
     log := two_pages_log |}.


(** The service hands [review] out again on the second page, ahead of an
    older record. *)
Definition repeats : Host := {|
  list_endpoint := fun _ toDate =>
    match toDate with
    | Some "2023-12-01T00:00:00.000Z" => envelope [review]
    | Some "2023-11-14T22:13:19.000Z" => envelope [review; kickoff]
    | _ => envelope []
    end;
  detail_endpoint := fun _ => Response 500 None;
  now := december;
  utcoffset := fun _ => 0;
  encodable := fun _ => true
|}.

(** Records and replies that lack what the loop reads. *)
Definition undated : Host := {|
  list_endpoint := fun _ _ => envelope [JObj [("title", JStr "Retro"); ("id", JStr "x")]];
  detail_endpoint := fun _ => Response 500 None;
  now := december;
  utcoffset := fun _ => 0;
  encodable := fun _ => true
|}.

Definition misdated : Host := {|
  list_endpoint := fun _ _ => envelope [summary "x" "Retro" (JStr "yesterday")];
  detail_endpoint := fun _ => Response 500 None;
  now := december;
  utcoffset := fun _ => 0;
  encodable := fun _ => true
|}.

Definition bare_detail : Host := {|
  list_endpoint := list_endpoint two_pages;
  detail_endpoint := fun _ => Response 200 (Some (JObj []));
  now := december;
  utcoffset := fun _ => 0;
  encodable := fun _ => true
|}.



(** A service that ignores the watermark and always lists [review]. *)
Definition stuck : Host := {|
  list_endpoint := fun _ _ => envelope [review];
  detail_endpoint := fun _ => Response 500 None;
  now := december;
  utcoffset := fun _ => 0;
  encodable := fun _ => true
|}.

(** A record that is already saved comes back without its title. *)
Definition untitled : Host := {|
  list_endpoint := fun _ _ =>
    envelope [JObj [("id", JStr "a"); ("date", JInt 1700000000500)]];
  detail_endpoint := fun _ => Response 500 None;
  now := december;
  utcoffset := fun _ => 0;
  encodable := fun _ => true
|}.








End Sample.

(** ** Basic facts *)

Example strftime_date_2023 : strftime_date 1700000000500 = "2023-11-14".
Proof. reflexivity. Qed.

Example strftime_iso_2023 :
  strftime_iso (sub_seconds 1700000000500 1) = "2023-11-14T22:13:19.000Z".
Proof. reflexivity. Qed.

Example strftime_date_1968 : strftime_date (-86400000 * 400) = "1968-11-27".
Proof. reflexivity. Qed.

Example strftime_date_702 : strftime_date (-40000003200000) = "702-06-15".
Proof. reflexivity. Qed.

Example int_underscore : Py.int (JStr "1_000") = Ok 1000.
Proof. reflexivity. Qed.

Example int_spaces : Py.int (JStr " 12 ") = Ok 12.
Proof. reflexivity. Qed.

Example int_double_underscore : Py.int (JStr "1__2") = Raise ValueError.
Proof. reflexivity. Qed.

Example int_keeps_separator_chars :
  Py.int (JStr (String (ascii_of_nat 28) "5")) = Raise ValueError
  /\ Py.int (JStr (String (ascii_of_nat 160) "5")) = Ok 5.
Proof. split; reflexivity. Qed.

Lemma bind_Ok_inv {A B : Type} (m : res A) (k : A -> res B) (b : B) :
  bind m k = Ok b -> exists a, m = Ok a /\ k a = Ok b.
Proof.
  destruct m as [a | e]; simpl; intros H.
  - exists a; split; [reflexivity | exact H].
  - discriminate H.
Qed.

Lemma get_transcript_content_eq (h : Host) (id : json) (s : state) :
  get_transcript_content h id s =
  (decode_detail (detail_endpoint h id), add_event (DetailQuery id) s).
Proof.
  unfold get_transcript_content, decode_detail, bindM, emit, add_event.
  destruct (detail_endpoint h id) as [| status body]; [reflexivity |].
  destruct (negb (status =? 200)); [reflexivity |].
  destruct body as [data |]; [| reflexivity].
  unfold lift, ret, bind.
  destruct (contains "errors" data) as [[|] | e]; try reflexivity.
  - destruct (getitem data "errors") as [errs | e]; reflexivity.
  - destruct (getitem data "data") as [d | e]; reflexivity.
Qed.

Lemma get_transcripts_eq (h : Host) (limit : Z) (to_date : option datetime) (s : state) :
  get_transcripts h limit to_date s =
  (decode_listing (list_endpoint h (Z.min limit 25) (option_map strftime_iso to_date)),
   add_event (ListQuery (Z.min limit 25) (option_map strftime_iso to_date)) s).
Proof.
  unfold get_transcripts, variables, decode_listing, bindM, emit, add_event.
  cbn [fst snd].
  destruct (list_endpoint h _ _) as [| status [data |]]; try reflexivity.
  unfold lift, ret, bind.
  destruct (contains "errors" data) as [[|] | e]; try reflexivity.
  destruct (getitem data "errors") as [errs | e]; reflexivity.
Qed.

(** ** The listing query *)

(** C9: the [limit] variable of the listing query that [get_transcripts]
    sends is [min(limit, 25)]: a request above 25 is sent as 25, a request
    of 25 or less is sent as it is. *)
Theorem listing_limit_is_min_25 (h : Host) (limit : Z) (to_date : option datetime)
    (s : state) :
  log (snd (get_transcripts h limit to_date s)) =
    (log s ++ [ListQuery (Z.min limit 25) (option_map strftime_iso to_date)])%list
  /\ fst (get_transcripts h limit to_date s) =
       decode_listing (list_endpoint h (Z.min limit 25) (option_map strftime_iso to_date))
  /\ Z.min limit 25 = (if limit <=? 25 then limit else 25)
  /\ Z.min limit 25 <= 25.
Proof.
  rewrite get_transcripts_eq; cbn [fst snd add_event log].
  repeat split.
  - destruct (Z.leb_spec limit 25); lia.
  - lia.
Qed.

(** ** Title sanitisation *)

Lemma allowed_char (c : ascii) : allowed (String c EmptyString) = retained c.
Proof.
  unfold allowed, retained, str_isalnum; cbn [all_chars String.eqb].
  rewrite andb_true_r.
  destruct (Ascii.eqb c " "), (Ascii.eqb c "-"), (Ascii.eqb c "_"), (Ascii.eqb c ".");
    reflexivity.
Qed.

Lemma join_allowed_chars (t : string) :
  join_allowed (map JStr (chars t)) = Ok (retain t).
Proof.
  induction t as [| c t IH]; [reflexivity |].
  cbn [chars map join_allowed retain].
  rewrite IH; cbn [bind].
  rewrite allowed_char.
  destruct (retained c); reflexivity.
Qed.

Lemma safe_title_str (t : string) : safe_title (JStr t) = Ok (retain t).
Proof. unfold safe_title; cbn [iter bind]. apply join_allowed_chars. Qed.

Lemma retain_all_retained (t : string) : all_chars retained (retain t) = true.
Proof.
  induction t as [| c t IH]; [reflexivity |].
  cbn [retain]. destruct (retained c) eqn:E; [| exact IH].
  cbn [all_chars]. now rewrite E, IH.
Qed.

Lemma take_all_chars (p : ascii -> bool) (n : nat) (s : string) :
  all_chars p s = true -> all_chars p (take n s) = true.
Proof.
  revert s; induction n as [| n IH]; intros [| c s] H; try reflexivity.
  cbn [all_chars take] in *.
  apply andb_true_iff in H as [Hc Hs].
  now rewrite Hc, (IH s Hs).
Qed.

Lemma take_length (n : nat) (s : string) : (String.length (take n s) <= n)%nat.
Proof.
  revert s; induction n as [| n IH]; intros [| c s]; cbn [take String.length]; try lia.
  specialize (IH s); lia.
Qed.

Lemma take_prefix (n : nat) (s : string) : prefix_of (take n s) s = true.
Proof.
  revert s; induction n as [| n IH]; intros [| c s]; cbn [take prefix_of]; try reflexivity.
  now rewrite Ascii.eqb_refl, IH.
Qed.

Lemma take_short (n : nat) (s : string) :
  (String.length s <= n)%nat -> take n s = s.
Proof.
  revert s; induction n as [| n IH]; intros [| c s] H; cbn [take String.length] in *;
    try reflexivity; try lia.
  f_equal; apply IH; lia.
Qed.

(** ** One record *)

Lemma save_one_skip (h : Host) (ids : pyset) (t id title : json)
    (e : option datetime) (s : state) :
  getitem t "id" = Ok id ->
  set_contains id ids = Ok true ->
  getitem t "title" = Ok title ->
  save_one h ids t e s = (Ok e, add_event (Skipping t) s).
Proof.
  intros Hid Hin Htitle.
  unfold save_one, bindM, lift. rewrite Hid, Hin, Htitle. reflexivity.
Qed.

Lemma save_one_new (h : Host) (ids : pyset) (t id title : json)
    (e : option datetime) (s : state) :
  getitem t "id" = Ok id ->
  set_contains id ids = Ok false ->
  getitem t "title" = Ok title ->
  save_one h ids t e s =
  match decode_detail (detail_endpoint h id) with
  | Raise ex => (Raise ex, add_event (DetailQuery id) s)
  | Ok content =>
      match name_and_date h (persisted content t) with
      | Raise ex => (Raise ex, add_event (DetailQuery id) s)
      | Ok (name, d) =>
          if encodable h (persisted content t) then
            (Ok (track d e),
             {| files := write_file name (persisted content t) (files s);
                log := ((log s ++ [DetailQuery id])
                        ++ [Saved name (persisted content t)])%list |})
          else
            (Raise UnicodeEncodeError,
             {| files := truncate_file name (files s);
                log := ((log s ++ [DetailQuery id]) ++ [Truncated name])%list |})
      end
  end.
Proof.
  intros Hid Hin Htitle.
  unfold save_one, bindM, lift. rewrite Hid, Hin, Htitle.
  rewrite get_transcript_content_eq.
  destruct (decode_detail (detail_endpoint h id)) as [content | ex]; [| reflexivity].
  unfold name_and_date, persisted, bind.
  destruct (getitem (if truthy content then content else t) "date") as [date | ex];
    [| reflexivity].
  destruct (Py.int date) as [millis | ex]; [| reflexivity].
  destruct (getitem (if truthy content then content else t) "title") as [ti | ex];
    [| reflexivity].
  destruct (safe_title ti) as [safe | ex]; [| reflexivity].
  unfold dump. cbn [add_event files log].
  destruct (encodable h (if truthy content then content else t)); reflexivity.
Qed.

(** The three ways out of [save_one]: an exception before anything is
    decided, a skip, or a fetch. *)
Lemma save_one_cases (h : Host) (ids : pyset) (t : json)
    (e : option datetime) (s : state) :
  (exists ex, save_one h ids t e s = (Raise ex, s))
  \/ (exists id title,
        getitem t "id" = Ok id /\ set_contains id ids = Ok true
        /\ getitem t "title" = Ok title)
  \/ (exists id title,
        getitem t "id" = Ok id /\ set_contains id ids = Ok false
        /\ getitem t "title" = Ok title).
Proof.
  destruct (getitem t "id") as [id | ex] eqn:Hid.
  2:{ left; exists ex. unfold save_one, bindM, lift. now rewrite Hid. }
  destruct (set_contains id ids) as [[|] | ex] eqn:Hin.
  3:{ left; exists ex. unfold save_one, bindM, lift. now rewrite Hid, Hin. }
  - destruct (getitem t "title") as [title | ex] eqn:Ht.
    + right; left; now exists id, title.
    + left; exists ex. unfold save_one, bindM, lift. now rewrite Hid, Hin, Ht.
  - destruct (getitem t "title") as [title | ex] eqn:Ht.
    + right; right; now exists id, title.
    + left; exists ex. unfold save_one, bindM, lift. now rewrite Hid, Hin, Ht.
Qed.

Lemma set_contains_mem (id : json) (ids : pyset) (b : bool) :
  set_contains id ids = Ok b -> mem id ids = b /\ hashable id = true.
Proof.
  unfold set_contains. destruct (hashable id); [| discriminate].
  intros H; injection H as H; now split.
Qed.

Lemma replay_app (evs1 evs2 : list event) (d : directory) :
  replay (evs1 ++ evs2) d = replay evs2 (replay evs1 d).
Proof.
  revert d; induction evs1 as [| ev evs1 IH]; intros d; [reflexivity |].
  destruct ev; cbn [app replay]; apply IH.
Qed.

Lemma dates_app (h : Host) (evs1 evs2 : list event) :
  dates h (evs1 ++ evs2) = (dates h evs1 ++ dates h evs2)%list.
Proof.
  induction evs1 as [| ev evs1 IH]; [reflexivity |].
  destruct ev; cbn [app dates]; try exact IH.
  destruct (name_and_date h transcript) as [[n d] | ex]; [| exact IH].
  cbn [app]; now rewrite IH.
Qed.

(** What one turn of the [for] loop adds: a stretch of log whose skips and
    fetches agree with [ids], whose writes are the change of the directory,
    and whose save timestamps are folded into [earliest_date]. *)
Lemma save_one_trace (h : Host) (ids : pyset) (t : json)
    (e : option datetime) (s : state) :
  exists evs,
    log (snd (save_one h ids t e s)) = (log s ++ evs)%list
    /\ files (snd (save_one h ids t e s)) = replay evs (files s)
    /\ Forall (decided ids) evs
    /\ (forall e', fst (save_one h ids t e s) = Ok e' ->
          e' = fold_left (fun acc d => track d acc) (dates h evs) e).
Proof.
  destruct (save_one_cases h ids t e s)
    as [[ex H] | [(id & title & Hid & Hin & Ht) | (id & title & Hid & Hin & Ht)]].
  - exists []. rewrite H; cbn [fst snd replay]. rewrite app_nil_r.
    repeat split; [constructor | discriminate].
  - exists [Skipping t]. rewrite (save_one_skip _ _ _ _ _ _ _ Hid Hin Ht).
    cbn [fst snd add_event log files replay dates fold_left].
    repeat split.
    + constructor; [| constructor]. exists id; split; [exact Hid |].
      now apply set_contains_mem in Hin.
    + intros e' H; now injection H as <-.
  - rewrite (save_one_new _ _ _ _ _ _ _ Hid Hin Ht).
    apply set_contains_mem in Hin as [Hmem _].
    destruct (decode_detail (detail_endpoint h id)) as [content | ex].
    2:{ exists [DetailQuery id]; cbn [fst snd add_event log files replay].
        repeat split; [repeat constructor; exact Hmem | discriminate]. }
    destruct (name_and_date h (persisted content t)) as [[name d] | ex] eqn:Hnd.
    2:{ exists [DetailQuery id]; cbn [fst snd add_event log files replay].
        repeat split; [repeat constructor; exact Hmem | discriminate]. }
    destruct (encodable h (persisted content t)).
    2:{ exists [DetailQuery id; Truncated name].
        cbn [fst snd log files replay dates].
        repeat split; try discriminate.
        - now rewrite <- app_assoc.
        - repeat constructor; exact Hmem. }
    exists [DetailQuery id; Saved name (persisted content t)].
    cbn [fst snd log files replay dates]. rewrite Hnd. cbn [fold_left].
    repeat split.
    + now rewrite <- app_assoc.
    + repeat constructor; exact Hmem.
    + intros e' H; now injection H as <-.
Qed.

(** ** The name of the file *)

Lemma name_and_date_str_title (h : Host) (obj : json) (name title : string)
    (d : datetime) :
  name_and_date h obj = Ok (name, d) ->
  getitem obj "title" = Ok (JStr title) ->
  name = strftime_date d ++ "_" ++ take 50 (retain title) ++ ".json"
  /\ file_date h (Text obj) = Ok d.
Proof.
  unfold name_and_date, file_date. cbn [load bind]. intros H Ht.
  destruct (getitem obj "date") as [date | ex]; cbn [bind] in *; [| discriminate].
  destruct (Py.int date) as [millis | ex]; cbn [bind] in *; [| discriminate].
  rewrite Ht in H. cbn [bind] in H. rewrite safe_title_str in H. cbn [bind] in H.
  split; congruence.
Qed.

(** C3, as the code has it: the safe title keeps, in order, exactly the
    characters that are alphanumeric or one of space, hyphen, underscore and
    period; the file that [save_one] writes for a record is named by the
    date, an underscore, the first 50 characters of the safe title of the
    object it holds, and [.json]; and for the title [Q&A: Plan/Review?] the
    result is [QA PlanReview]: the slash is dropped like the other rejected
    characters, no space takes its place. *)
Theorem safe_title_keeps_allowed_chars_first_50 (h : Host) (ids : pyset)
    (t id : json) (e e' : option datetime) (s s' : state) :
  getitem t "id" = Ok id ->
  set_contains id ids = Ok false ->
  save_one h ids t e s = (Ok e', s') ->
  (forall title : string, safe_title (JStr title) = Ok (retain title))
  /\ (exists (name : string) (obj : json) (d : datetime),
        log s' = (log s ++ [DetailQuery id; Saved name obj])%list
        /\ files s' = write_file name obj (files s)
        /\ forall title : string,
             getitem obj "title" = Ok (JStr title) ->
             file_date h (Text obj) = Ok d
             /\ name = strftime_date d ++ "_" ++ take 50 (retain title) ++ ".json"
             /\ all_chars retained (take 50 (retain title)) = true
             /\ (String.length (take 50 (retain title)) <= 50)%nat
             /\ prefix_of (take 50 (retain title)) (retain title) = true)
  /\ (x <~ safe_title (JStr "Q&A: Plan/Review?") ;; Ok (take 50 x)) = Ok "QA PlanReview".
Proof.
  intros Hid Hnew Hsave.
  split; [apply safe_title_str |]. split; [| reflexivity].
  destruct (getitem t "title") as [ti | ex] eqn:Ht.
  2:{ unfold save_one, bindM, lift in Hsave. rewrite Hid, Hnew, Ht in Hsave. discriminate. }
  rewrite (save_one_new _ _ _ _ _ _ _ Hid Hnew Ht) in Hsave.
  destruct (decode_detail (detail_endpoint h id)) as [content | ex]; [| discriminate].
  destruct (name_and_date h (persisted content t)) as [[name d] | ex] eqn:Hnd;
    [| discriminate].
  destruct (encodable h (persisted content t)); [| discriminate].
  injection Hsave as _ <-. cbn [files log].
  exists name, (persisted content t), d.
  split; [now rewrite <- app_assoc |]. split; [reflexivity |].
  intros title Htitle.
  destruct (name_and_date_str_title h _ name title d Hnd Htitle) as [Hname Hdate].
  split; [exact Hdate |]. split; [exact Hname |].
  split; [apply take_all_chars, retain_all_retained |].
  split; [apply take_length | apply take_prefix].
Qed.

Lemma safe_title_keeps_allowed_chars_first_50_witness :
  (forall title : string, safe_title (JStr title) = Ok (retain title))
  /\ (exists (name : string) (obj : json) (d : datetime),
        log {| files := [("2023-11-14_QA PlanReview.json", Text Sample.review)];
               log := [DetailQuery (JStr "a");
                       Saved "2023-11-14_QA PlanReview.json" Sample.review] |}
        = (log Sample.empty ++ [DetailQuery (JStr "a"); Saved name obj])%list
        /\ files {| files := [("2023-11-14_QA PlanReview.json", Text Sample.review)];
                    log := [DetailQuery (JStr "a");
                            Saved "2023-11-14_QA PlanReview.json" Sample.review] |}
           = write_file name obj (files Sample.empty)
        /\ forall title : string,
             getitem obj "title" = Ok (JStr title) ->
             file_date Sample.two_pages (Text obj) = Ok d
             /\ name = strftime_date d ++ "_" ++ take 50 (retain title) ++ ".json"
             /\ all_chars retained (take 50 (retain title)) = true
             /\ (String.length (take 50 (retain title)) <= 50)%nat
             /\ prefix_of (take 50 (retain title)) (retain title) = true)
  /\ (x <~ safe_title (JStr "Q&A: Plan/Review?") ;; Ok (take 50 x)) = Ok "QA PlanReview".
Proof.
  exact (safe_title_keeps_allowed_chars_first_50 Sample.two_pages [] Sample.review
           (JStr "a") None (Some 1700000000500) Sample.empty _ eq_refl eq_refl eq_refl).
Defined.

(** The title of the specification's example does not come out as
    [QA Plan Review]. *)
Lemma safe_title_example_has_no_second_space :
  (s <~ safe_title (JStr "Q&A: Plan/Review?") ;; Ok (take 50 s)) <> Ok "QA Plan Review".
Proof. vm_compute. discriminate. Qed.

(** ** One page, one turn of the loop, the whole loop *)

Lemma save_page_trace (h : Host) (ids : pyset) (page : list json) :
  forall (e : option datetime) (s : state),
  exists evs,
    log (snd (save_page h ids page e s)) = (log s ++ evs)%list
    /\ files (snd (save_page h ids page e s)) = replay evs (files s)
    /\ Forall (decided ids) evs
    /\ (forall e', fst (save_page h ids page e s) = Ok e' ->
          e' = fold_left (fun acc d => track d acc) (dates h evs) e).
Proof.
  induction page as [| t rest IH]; intros e s.
  - exists []. cbn [save_page ret fst snd replay dates fold_left].
    rewrite app_nil_r. repeat split; [constructor |].
    intros e' H; now injection H as <-.
  - destruct (save_one_trace h ids t e s) as (evs1 & Hlog1 & Hfiles1 & Hdec1 & Hfold1).
    cbn [save_page]; unfold bindM.
    destruct (save_one h ids t e s) as [[e1 | ex] s1]; cbn [fst snd] in *.
    + destruct (IH e1 s1) as (evs2 & Hlog2 & Hfiles2 & Hdec2 & Hfold2).
      exists (evs1 ++ evs2)%list. repeat split.
      * now rewrite Hlog2, Hlog1, app_assoc.
      * now rewrite Hfiles2, Hfiles1, replay_app.
      * apply Forall_app; now split.
      * intros e' H. rewrite dates_app, fold_left_app.
        rewrite <- (Hfold1 e1 eq_refl). now apply Hfold2.
    + exists evs1. repeat split; try assumption; try discriminate.
Qed.

Lemma save_batch_eq (h : Host) (ids : pyset) (last_date : datetime) (s : state) :
  save_batch h ids last_date s =
  match page_of h last_date with
  | Raise ex => (Raise ex, add_event (ListQuery 25 (Some (strftime_iso last_date))) s)
  | Ok None => (Ok None, add_event (ListQuery 25 (Some (strftime_iso last_date))) s)
  | Ok (Some items) =>
      match save_page h ids items None
              (add_event (ListQuery 25 (Some (strftime_iso last_date))) s) with
      | (Ok (Some e), s') => (Ok (Some (sub_seconds e 1)), s')
      | (Ok None, s') => (Ok None, s')
      | (Raise ex, s') => (Raise ex, s')
      end
  end.
Proof.
  unfold save_batch, bindM. rewrite get_transcripts_eq.
  change (Z.min 25 25) with 25. cbn [option_map].
  unfold page_of, decode_page, lift, ret.
  destruct (decode_listing _) as [result | ex]; cbn [bind]; [| reflexivity].
  destruct (no_more result) as [[|] | ex]; cbn [bind]; try reflexivity.
  destruct (getitem result "data") as [d | ex]; cbn [bind]; [| reflexivity].
  destruct (getitem d "transcripts") as [transcripts | ex]; cbn [bind]; [| reflexivity].
  destruct (negb (truthy transcripts)); [reflexivity |].
  destruct (iter transcripts) as [items | ex]; cbn [bind]; [| reflexivity].
  destruct (save_page h ids items None _) as [[[e |] | ex] s']; reflexivity.
Qed.

(** One turn of the loop: a listing query first, then the page. *)
Lemma save_batch_trace (h : Host) (ids : pyset) (last_date : datetime) (s : state) :
  exists evs,
    log (snd (save_batch h ids last_date s)) =
      (log s ++ ListQuery 25 (Some (strftime_iso last_date)) :: evs)%list
    /\ files (snd (save_batch h ids last_date s)) = replay evs (files s)
    /\ Forall (decided ids) evs.
Proof.
  rewrite save_batch_eq.
  destruct (page_of h last_date) as [[items |] | ex].
  2,3: exists []; cbn [snd add_event log files replay]; repeat split; constructor.
  destruct (save_page_trace h ids items None
              (add_event (ListQuery 25 (Some (strftime_iso last_date))) s))
    as (evs & Hlog & Hfiles & Hdec & _).
  exists evs.
  destruct (save_page h ids items None _) as [[[e |] | ex] s']; cbn [fst snd] in *;
    cbn [add_event log files] in Hlog, Hfiles;
    (repeat split; [now rewrite Hlog, <- app_assoc | exact Hfiles | exact Hdec]).
Qed.

(** The whole loop, for any fuel and however it stops. *)
Lemma backfill_trace (h : Host) (ids : pyset) (fuel : nat) :
  forall (last_date : datetime) (s : state),
  exists evs,
    log (state_of (backfill fuel h ids last_date s)) = (log s ++ evs)%list
    /\ files (state_of (backfill fuel h ids last_date s)) = replay evs (files s)
    /\ Forall (decided ids) evs.
Proof.
  induction fuel as [| fuel IH]; intros last_date s.
  - exists []. cbn [backfill state_of replay]. rewrite app_nil_r.
    repeat split; constructor.
  - destruct (save_batch_trace h ids last_date s) as (evs1 & Hlog1 & Hfiles1 & Hdec1).
    cbn [backfill].
    destruct (save_batch h ids last_date s) as [[[next |] | ex] s1]; cbn [fst snd] in *.
    + destruct (IH next s1) as (evs2 & Hlog2 & Hfiles2 & Hdec2).
      exists ((ListQuery 25 (Some (strftime_iso last_date)) :: evs1) ++ evs2)%list.
      repeat split.
      * now rewrite Hlog2, Hlog1, app_assoc.
      * rewrite Hfiles2, Hfiles1, replay_app. reflexivity.
      * apply Forall_app; split; [constructor; [exact I | exact Hdec1] | exact Hdec2].
    + exists (ListQuery 25 (Some (strftime_iso last_date)) :: evs1).
      cbn [state_of]. repeat split; try assumption.
      constructor; [exact I | exact Hdec1].
    + exists (ListQuery 25 (Some (strftime_iso last_date)) :: evs1).
      cbn [state_of]. repeat split; try assumption.
      constructor; [exact I | exact Hdec1].
Qed.

(** ** A page of duplicates *)

Lemma save_page_all_skipped (h : Host) (ids : pyset) (page : list json) :
  Forall (fun t => exists id title,
            getitem t "id" = Ok id /\ set_contains id ids = Ok true
            /\ getitem t "title" = Ok title) page ->
  forall (e : option datetime) (s : state),
    save_page h ids page e s =
    (Ok e, {| files := files s; log := (log s ++ map Skipping page)%list |}).
Proof.
  induction 1 as [| t rest (id & title & Hid & Hin & Ht) _ IH]; intros e s.
  - cbn [save_page ret map]. rewrite app_nil_r. now destruct s.
  - cbn [save_page]; unfold bindM.
    rewrite (save_one_skip _ _ _ _ _ _ _ Hid Hin Ht), IH.
    cbn [add_event files log map]. now rewrite <- app_assoc.
Qed.

(** C1, as the code has it: a page in which every record is already in the
    Existing-ID Set and carries a title (the skip message reads it) is
    skipped record by record, nothing is written, no save timestamp is taken
    from it, and the loop ends on that page, whether its records carry dates
    or not.  The watermark does not move and no further listing query is
    made. *)
Theorem all_duplicate_page_ends_loop (h : Host) (ids : pyset) (last_date : datetime)
    (page : list json) (s : state) (fuel : nat) :
  page_of h last_date = Ok (Some page) ->
  Forall (fun t => exists id title,
            getitem t "id" = Ok id /\ set_contains id ids = Ok true
            /\ getitem t "title" = Ok title) page ->
  backfill (S fuel) h ids last_date s =
  Finished {| files := files s;
              log := (log s ++ ListQuery 25 (Some (strftime_iso last_date))
                              :: map Skipping page)%list |}.
Proof.
  intros Hpage Hdup. cbn [backfill].
  rewrite save_batch_eq, Hpage, (save_page_all_skipped _ _ _ Hdup).
  cbn [add_event files log]. now rewrite <- app_assoc.
Qed.

Lemma all_duplicate_page_ends_loop_witness :
  backfill 3 Sample.two_pages [JStr "a"] Sample.december Sample.has_review =
  Finished {| files := files Sample.has_review;
              log := [ListQuery 25 (Some "2023-12-01T00:00:00.000Z");
                      Skipping Sample.review] |}.
Proof.
  apply (all_duplicate_page_ends_loop Sample.two_pages [JStr "a"] Sample.december
           [Sample.review] Sample.has_review 2).
  - reflexivity.
  - repeat constructor.
    exists (JStr "a"), (JStr "Q&A: Plan/Review?"). repeat split; reflexivity.
Defined.

(** The only record of the first page is a duplicate with a date that
    parses, and an older record waits behind it: the run makes one listing
    query, skips, and stops; the query for one second before that date is
    never sent.  When the duplicate comes back without its title, the run
    does not even skip it: the skip message raises. *)
Lemma duplicate_page_with_dates_stops_run :
  page_of Sample.two_pages Sample.december = Ok (Some [Sample.review])
  /\ set_contains (JStr "a") (scan_ids (files Sample.has_review) []) = Ok true
  /\ name_and_date Sample.two_pages Sample.review
     = Ok ("2023-11-14_QA PlanReview.json", 1700000000500)
  /\ page_of Sample.two_pages (sub_seconds 1700000000500 1) = Ok (Some [Sample.weekly])
  /\ save_transcripts 5 Sample.two_pages None Sample.has_review =
     Finished {| files := files Sample.has_review;
                 log := [ListQuery 25 (Some "2023-12-01T00:00:00.000Z");
                         Skipping Sample.review] |}
  /\ save_transcripts 5 Sample.untitled None Sample.has_review =
     Crashed (KeyError "title")
       {| files := files Sample.has_review;
          log := [ListQuery 25 (Some "2023-12-01T00:00:00.000Z")] |}.
Proof.
  repeat split; try reflexivity.
Qed.

(** ** The watermark *)

(** Folding [track] over save timestamps keeps the least of them. *)
Lemma fold_track_least (l : list datetime) :
  forall e : option datetime,
  match fold_left (fun acc d => track d acc) l e with
  | Some m =>
      (In m l \/ e = Some m)
      /\ Forall (fun d => m <= d) l
      /\ (forall e0, e = Some e0 -> m <= e0)
  | None => l = [] /\ e = None
  end.
Proof.
  induction l as [| d l IH]; intros e.
  - cbn [fold_left]. destruct e as [m |]; [| now split].
    split; [now right |]. split; [constructor |].
    intros e0 H; injection H as <-; lia.
  - cbn [fold_left]. specialize (IH (track d e)).
    destruct (fold_left _ l (track d e)) as [m |].
    + destruct IH as (Hin & Hall & Hle).
      assert (Hm : m <= d /\ (forall e0, e = Some e0 -> m <= e0)).
      { unfold track in Hle. destruct e as [e0 |].
        - destruct (Z.ltb_spec d e0).
          + specialize (Hle d eq_refl). split; [lia |].
            intros e1 H1; injection H1 as <-; lia.
          + specialize (Hle e0 eq_refl). split; [lia |].
            intros e1 H1; injection H1 as <-; lia.
        - specialize (Hle d eq_refl). split; [lia | discriminate]. }
      destruct Hm as [Hd He].
      split; [| split; [constructor; assumption | exact He]].
      destruct Hin as [Hin | Hin]; [left; now right |].
      unfold track in Hin. destruct e as [e0 |].
      * destruct (d <? e0); injection Hin as <-; [left; now left | now right].
      * injection Hin as <-. left; now left.
    + destruct IH as [_ H]. unfold track in H.
      destruct e as [e0 |]; [destruct (d <? e0) |]; discriminate.
Qed.

(** The rendering of a watermark only looks at its whole seconds. *)
Lemma strftime_iso_whole_seconds (d : datetime) :
  strftime_iso d = strftime_iso (1000 * (d / 1000)).
Proof.
  unfold strftime_iso, strftime_date.
  replace (1000 * (d / 1000) / 1000) with (d / 1000)
    by (rewrite Z.mul_comm, Z.div_mul; lia).
  replace (1000 * (d / 1000) / 86400000) with (d / 86400000); [reflexivity |].
  change 86400000 with (1000 * 86400).
  rewrite <- !Z.div_div by lia.
  f_equal. rewrite Z.mul_comm, Z.div_mul; lia.
Qed.



(** ** Detail or summary *)

Lemma read_file_write_file (name : string) (v : json) (d : directory) :
  read_file name (write_file name v d) = Some (Text v).
Proof.
  induction d as [| [n f] d IH]; cbn [write_file read_file].
  - now rewrite String.eqb_refl.
  - destruct (n =? name)%string eqn:E; cbn [read_file]; rewrite E; [reflexivity | exact IH].
Qed.




(** The same fetch failing: the summary record is what lands in the file. *)
Example summary_written_when_detail_absent :
  save_one Sample.two_pages [] Sample.review None Sample.empty =
  (Ok (Some 1700000000500),
   {| files := [("2023-11-14_QA PlanReview.json", Text Sample.review)];
      log := [DetailQuery (JStr "a");
              Saved "2023-11-14_QA PlanReview.json" Sample.review] |}).
Proof. reflexivity. Qed.

(** A reply that is an object without any field counts as no detail. *)
Example empty_detail_object_falls_back :
  persisted (JObj []) Sample.review = Sample.review.
Proof. reflexivity. Qed.

(** ** The Existing-ID Set during a run *)

(** C6, as the code has it: the Existing-ID Set is built once, by the scan
    at the start of [save_transcripts]; on every page of the run each skip
    and each fetch is decided against the ids of the files that were in the
    output directory when the run started, whatever the run has written
    since. *)
Theorem skip_test_uses_ids_scanned_at_start (fuel : nat) (h : Host)
    (to_date : option datetime) (s : state) :
  exists evs,
    log (state_of (save_transcripts fuel h to_date s)) = (log s ++ evs)%list
    /\ files (state_of (save_transcripts fuel h to_date s)) = replay evs (files s)
    /\ Forall (decided (scan_ids (files s) [])) evs.
Proof.
  unfold save_transcripts. apply backfill_trace.
Qed.

(** A run that meets [review] on two pages.  When the second page is
    walked the directory holds a file with id [a], yet the record is not
    skipped: it is fetched and saved again. *)
Lemma second_page_not_tested_against_current_files :
  save_batch Sample.repeats (scan_ids (files Sample.empty) []) Sample.december Sample.empty
  = (Ok (Some (sub_seconds 1700000000500 1)),
     {| files := [("2023-11-14_QA PlanReview.json", Text Sample.review)];
        log := [ListQuery 25 (Some "2023-12-01T00:00:00.000Z");
                DetailQuery (JStr "a");
                Saved "2023-11-14_QA PlanReview.json" Sample.review] |})
  /\ set_contains (JStr "a")
       (scan_ids [("2023-11-14_QA PlanReview.json", Text Sample.review)] []) = Ok true
  /\ page_of Sample.repeats (sub_seconds 1700000000500 1)
     = Ok (Some [Sample.review; Sample.kickoff])
  /\ save_transcripts 5 Sample.repeats None Sample.empty
     = Finished
         {| files := [("2023-11-14_QA PlanReview.json", Text Sample.review);
                      ("2023-03-28_Kickoff.json", Text Sample.kickoff)];
            log := [ListQuery 25 (Some "2023-12-01T00:00:00.000Z");
                    DetailQuery (JStr "a");
                    Saved "2023-11-14_QA PlanReview.json" Sample.review;
                    ListQuery 25 (Some "2023-11-14T22:13:19.000Z");
                    DetailQuery (JStr "a");
                    Saved "2023-11-14_QA PlanReview.json" Sample.review;
                    DetailQuery (JStr "c");
                    Saved "2023-03-28_Kickoff.json" Sample.kickoff;
                    ListQuery 25 (Some "2023-03-28T10:39:59.000Z")] |}.
Proof.
  repeat split; reflexivity.
Qed.

Lemma write_file_twice (name : string) (v : json) (d : directory) :
  write_file name v (write_file name v d) = write_file name v d.
Proof.
  induction d as [| [n f] d IH]; cbn [write_file].
  - now rewrite String.eqb_refl.
  - destruct (n =? name)%string eqn:E; cbn [write_file]; rewrite E; [reflexivity |].
    now rewrite IH.
Qed.

(** C10: a record whose id is not in the set scanned at the start and that
    is saved once is not protected afterwards: nothing in the loop skips it,
    and whenever it is met again in the same run, whatever the directory
    holds by then, it is fetched again and written again under the same
    name, over the file of the first time. *)
Theorem saved_record_is_saved_again_in_same_run (h : Host) (ids : pyset)
    (t id : json) (e1 e1' : option datetime) (s1 s1' : state) :
  getitem t "id" = Ok id ->
  set_contains id ids = Ok false ->
  save_one h ids t e1 s1 = (Ok e1', s1') ->
  exists name obj d,
    files s1' = write_file name obj (files s1)
    /\ read_file name (files s1') = Some (Text obj)
    /\ (forall (e2 : option datetime) (s2 : state),
          save_one h ids t e2 s2 =
          (Ok (track d e2),
           {| files := write_file name obj (files s2);
              log := (log s2 ++ [DetailQuery id; Saved name obj])%list |}))
    /\ write_file name obj (files s1') = files s1'
    /\ (forall (fuel : nat) (last_date : datetime) (s : state) (evs : list event),
          log (state_of (backfill fuel h ids last_date s)) = (log s ++ evs)%list ->
          ~ In (Skipping t) evs).
Proof.
  intros Hid Hnew Hsave.
  destruct (getitem t "title") as [title | ex] eqn:Ht.
  2:{ unfold save_one, bindM, lift in Hsave. rewrite Hid, Hnew, Ht in Hsave. discriminate. }
  pose proof (save_one_new h ids t id title) as Heq.
  rewrite (Heq e1 s1 Hid Hnew Ht) in Hsave.
  destruct (decode_detail (detail_endpoint h id)) as [content | ex] eqn:Hc; [| discriminate].
  destruct (name_and_date h (persisted content t)) as [[name d] | ex] eqn:Hnd; [| discriminate].
  destruct (encodable h (persisted content t)) eqn:Henc; [| discriminate].
  injection Hsave as _ <-. cbn [files].
  exists name, (persisted content t), d.
  split; [reflexivity |].
  split; [apply read_file_write_file |].
  split.
  { intros e2 s2. rewrite (Heq e2 s2 Hid Hnew Ht). now rewrite <- app_assoc. }
  split; [apply write_file_twice |].
  intros fuel last_date s evs Hlog Hin.
  destruct (backfill_trace h ids fuel last_date s) as (evs0 & Hlog0 & _ & Hdec).
  rewrite Hlog in Hlog0. apply app_inv_head in Hlog0. subst evs0.
  rewrite Forall_forall in Hdec. apply Hdec in Hin.
  destruct Hin as (id' & Hid' & Hmem).
  apply set_contains_mem in Hnew as [Hmem' _].
  congruence.
Qed.

Lemma saved_record_is_saved_again_in_same_run_witness :
  exists name obj d,
    files {| files := [("2023-11-14_QA PlanReview.json", Text Sample.review)];
             log := [DetailQuery (JStr "a");
                     Saved "2023-11-14_QA PlanReview.json" Sample.review] |}
    = write_file name obj (files Sample.empty)
    /\ read_file name
         (files {| files := [("2023-11-14_QA PlanReview.json", Text Sample.review)];
                   log := [DetailQuery (JStr "a");
                           Saved "2023-11-14_QA PlanReview.json" Sample.review] |})
       = Some (Text obj)
    /\ (forall (e2 : option datetime) (s2 : state),
          save_one Sample.repeats [] Sample.review e2 s2 =
          (Ok (track d e2),
           {| files := write_file name obj (files s2);
              log := (log s2 ++ [DetailQuery (JStr "a"); Saved name obj])%list |}))
    /\ write_file name obj
         (files {| files := [("2023-11-14_QA PlanReview.json", Text Sample.review)];
                   log := [DetailQuery (JStr "a");
                           Saved "2023-11-14_QA PlanReview.json" Sample.review] |})
       = files {| files := [("2023-11-14_QA PlanReview.json", Text Sample.review)];
                  log := [DetailQuery (JStr "a");
                          Saved "2023-11-14_QA PlanReview.json" Sample.review] |}
    /\ (forall (fuel : nat) (last_date : datetime) (s : state) (evs : list event),
          log (state_of (backfill fuel Sample.repeats [] last_date s)) = (log s ++ evs)%list ->
          ~ In (Skipping Sample.review) evs).
Proof.
  exact (saved_record_is_saved_again_in_same_run Sample.repeats [] Sample.review
           (JStr "a") None (Some 1700000000500) Sample.empty _ eq_refl eq_refl eq_refl).
Defined.

(** ** The scans of the existing output *)

Local Open Scope list_scope.



Lemma scan_dates_all_dated (h : Host) (d : directory) :
  all_dated h d = true ->
  forall e : option datetime,
    scan_dates h d e = (fold_left (fun acc x => track x acc) (valid_dates h d) e, None).
Proof.
  induction d as [| [name f] d IH]; intros Hall e; [reflexivity |].
  cbn [all_dated forallb fst snd] in Hall.
  apply andb_true_iff in Hall as [Hf Hd].
  cbn [scan_dates valid_dates].
  destruct (endswith name ".json"); [| now apply IH].
  destruct (file_date h f) as [date | ex]; [| discriminate].
  cbn [fold_left]. now apply IH.
Qed.






(** ** Failures that are not absorbed *)

(** C8: three runs that end in an exception no handler catches: a record
    without a [date] when the detail is absent, a record whose [date] is
    not a number, and a detail reply with status 200 that has no [data]
    key. *)
Theorem malformed_record_or_reply_ends_in_exception :
  main 5 Sample.undated (Some "secret") Sample.empty
  = Crashed (KeyError "date")
      {| files := [];
         log := [ListQuery 25 (Some "2023-12-01T00:00:00.000Z"); DetailQuery (JStr "x")] |}
  /\ main 5 Sample.misdated (Some "secret") Sample.empty
     = Crashed ValueError
         {| files := [];
            log := [ListQuery 25 (Some "2023-12-01T00:00:00.000Z"); DetailQuery (JStr "x")] |}
  /\ main 5 Sample.bare_detail (Some "secret") Sample.empty
     = Crashed (KeyError "data")
         {| files := [];
            log := [ListQuery 25 (Some "2023-12-01T00:00:00.000Z"); DetailQuery (JStr "a")] |}
  /\ main 5 Sample.undated None Sample.empty
     = Finished {| files := []; log := [MissingApiKey] |}.
Proof.
  repeat split; reflexivity.
Qed.

(** ** A second run over the output of a first one *)


Lemma eqb_trans (x y z : json) :
  Py.eqb x y = true -> Py.eqb y z = true -> Py.eqb x z = true.
Proof.
  destruct x, y, z; cbn; intros H1 H2; try discriminate; try reflexivity;
    try (apply Z.eqb_eq in H1, H2; apply Z.eqb_eq; congruence);
    try (apply String.eqb_eq in H1, H2; apply String.eqb_eq; congruence).
Qed.

Lemma mem_eqb_trans (x i : json) (ids : pyset) :
  Py.eqb x i = true -> mem i ids = true -> mem x ids = true.
Proof.
  unfold mem. intros Hxi Hi.
  apply existsb_exists in Hi as (y & Hy & Hiy).
  apply existsb_exists. exists y; split; [exact Hy |].
  now apply (eqb_trans x i y).
Qed.

Lemma scan_file_spec (entry : string * file) (ids : pyset) :
  scan_file entry ids =
  match file_id entry with
  | Some i => if mem i ids then ids else ids ++ [i]
  | None => ids
  end.
Proof.
  unfold scan_file, file_id.
  destruct (endswith (fst entry) ".json"); [| reflexivity].
  destruct (load (snd entry)) as [data | ex]; cbn [bind]; [| reflexivity].
  destruct (getitem data "id") as [id | ex]; cbn [bind]; [| reflexivity].
  unfold set_add. destruct (hashable id); reflexivity.
Qed.

Lemma mem_scan_file (x : json) (entry : string * file) (ids : pyset) :
  mem x (scan_file entry ids) = true <->
  mem x ids = true \/ exists i, file_id entry = Some i /\ Py.eqb x i = true.
Proof.
  rewrite scan_file_spec.
  destruct (file_id entry) as [i |].
  - destruct (mem i ids) eqn:Hi.
    + split; [now left |].
      intros [H | (j & Hj & Hx)]; [exact H |].
      injection Hj as <-. now apply (mem_eqb_trans x i).
    + unfold mem. rewrite existsb_app. cbn [existsb]. rewrite orb_false_r.
      rewrite orb_true_iff. split.
      * intros [H | H]; [now left | right; now exists i].
      * intros [H | (j & Hj & Hx)]; [now left |].
        injection Hj as <-. now right.
  - split; [now left |].
    intros [H | (j & Hj & _)]; [exact H | discriminate].
Qed.

Lemma mem_scan_ids (x : json) (d : directory) :
  forall ids : pyset,
  mem x (scan_ids d ids) = true <->
  mem x ids = true \/
  exists entry i, In entry d /\ file_id entry = Some i /\ Py.eqb x i = true.
Proof.
  induction d as [| entry d IH]; intros ids; cbn [scan_ids].
  - split; [now left |]. intros [H | (en & i & [] & _)]; exact H.
  - rewrite IH, mem_scan_file. split.
    + intros [[H | (i & Hi & Hx)] | (en & i & Hin & Hi & Hx)].
      * now left.
      * right; exists entry, i; repeat split; [now left | |]; assumption.
      * right; exists en, i; repeat split; [now right | |]; assumption.
    + intros [H | (en & i & [<- | Hin] & Hi & Hx)].
      * left; now left.
      * left; right; now exists i.
      * right; now exists en, i.
Qed.


Lemma In_write_file_other (name n' : string) (v : json) (f : file) (d : directory) :
  In (n', f) d -> n' <> name -> In (n', f) (write_file name v d).
Proof.
  intros Hin Hne.
  induction d as [| [n g] d IH]; cbn [write_file]; [destruct Hin |].
  destruct (String.eqb_spec n name) as [-> | Hn].
  - destruct Hin as [Heq | Hin]; [injection Heq as <- _; contradiction | now right].
  - destruct Hin as [Heq | Hin]; [now left | right; now apply IH].
Qed.

Lemma In_truncate_file_other (name n' : string) (f : file) (d : directory) :
  In (n', f) d -> n' <> name -> In (n', f) (truncate_file name d).
Proof.
  intros Hin Hne.
  induction d as [| [n g] d IH]; cbn [truncate_file]; [destruct Hin |].
  destruct (String.eqb_spec n name) as [-> | Hn].
  - destruct Hin as [Heq | Hin]; [injection Heq as <- _; contradiction | now right].
  - destruct Hin as [Heq | Hin]; [now left | right; now apply IH].
Qed.

Lemma replay_keeps (evs : list event) :
  forall (d : directory) (n : string) (f : file),
    In (n, f) d -> ~ In n (saved_names evs) -> In (n, f) (replay evs d).
Proof.
  induction evs as [| ev evs IH]; intros d n f Hin Hnot; [exact Hin |].
  destruct ev; cbn [replay saved_names] in *; try (now apply IH).
  - apply IH.
    + apply In_write_file_other; [exact Hin |].
      intros ->. apply Hnot. now left.
    + intros H. apply Hnot. now right.
  - apply IH.
    + apply In_truncate_file_other; [exact Hin |].
      intros ->. apply Hnot. now left.
    + intros H. apply Hnot. now right.
Qed.


Lemma saved_names_app (evs1 evs2 : list event) :
  saved_names (evs1 ++ evs2) = saved_names evs1 ++ saved_names evs2.
Proof.
  induction evs1 as [| ev evs1 IH]; [reflexivity |].
  destruct ev; cbn [app saved_names]; try exact IH; now rewrite IH.
Qed.

Lemma list_ascii_of_string_app (x y : string) :
  list_ascii_of_string (x ++ y)%string = list_ascii_of_string x ++ list_ascii_of_string y.
Proof.
  induction x as [| c x IH]; [reflexivity |].
  cbn [String.append list_ascii_of_string app]. now rewrite IH.
Qed.

Lemma string_of_list_ascii_app (l1 l2 : list ascii) :
  string_of_list_ascii (l1 ++ l2) =
  (string_of_list_ascii l1 ++ string_of_list_ascii l2)%string.
Proof.
  induction l1 as [| c l1 IH]; [reflexivity |].
  cbn [app string_of_list_ascii String.append]. now rewrite IH.
Qed.

Lemma rev_string_app (x y : string) :
  rev_string (x ++ y)%string = (rev_string y ++ rev_string x)%string.
Proof.
  unfold rev_string.
  now rewrite list_ascii_of_string_app, rev_app_distr, string_of_list_ascii_app.
Qed.

Lemma prefix_of_app_r (p s q : string) :
  prefix_of p s = true -> prefix_of p (s ++ q)%string = true.
Proof.
  revert s; induction p as [| a p IH]; intros s H; [reflexivity |].
  destruct s as [| b s]; [discriminate |].
  cbn [prefix_of String.append] in *.
  apply andb_true_iff in H as [Hab Hp]. now rewrite Hab, (IH s Hp).
Qed.

Lemma prefix_of_refl (p : string) : prefix_of p p = true.
Proof.
  induction p as [| a p IH]; [reflexivity |].
  cbn [prefix_of]. now rewrite Ascii.eqb_refl, IH.
Qed.

Lemma endswith_refl (suffix : string) : endswith suffix suffix = true.
Proof. apply prefix_of_refl. Qed.

Lemma endswith_app (x y suffix : string) :
  endswith y suffix = true -> endswith (x ++ y)%string suffix = true.
Proof.
  unfold endswith. intros H. rewrite rev_string_app. now apply prefix_of_app_r.
Qed.

Lemma name_and_date_json (h : Host) (obj : json) (name : string) (d : datetime) :
  name_and_date h obj = Ok (name, d) -> endswith name ".json" = true.
Proof.
  unfold name_and_date. intros H.
  destruct (getitem obj "date") as [date | ex]; cbn [bind] in H; [| discriminate].
  destruct (Py.int date) as [millis | ex]; cbn [bind] in H; [| discriminate].
  destruct (getitem obj "title") as [title | ex]; cbn [bind] in H; [| discriminate].
  destruct (safe_title title) as [safe | ex]; cbn [bind] in H; [| discriminate].
  assert (Hname : name = (strftime_date (fromtimestamp (utcoffset h) millis)
                          ++ "_" ++ take 50 safe ++ ".json")%string)
    by congruence.
  rewrite Hname.
  do 3 apply endswith_app. apply endswith_refl.
Qed.



Section SecondRun.

Variable h : Host.

(** The detail of a transcript carries the id it was asked for. *)
Hypothesis detail_has_id :
  forall id content : json,
    decode_detail (detail_endpoint h id) = Ok content ->
    truthy content = true ->
    getitem content "id" = Ok id.




End SecondRun.






(** ** File names *)

Lemma length_app_string (a b : string) :
  String.length (a ++ b)%string = (String.length a + String.length b)%nat.
Proof.
  induction a as [| c a IH]; [reflexivity |].
  cbn [String.append String.length]. now rewrite IH.
Qed.



Lemma dec_length (width : nat) (n : Z) : String.length (dec width n) = width.
Proof.
  revert n; induction width as [| w IH]; intros n; [reflexivity |].
  cbn [dec]. rewrite length_app_string, IH. cbn [String.length]. lia.
Qed.








Lemma app_string_assoc (a b c : string) :
  (a ++ (b ++ c))%string = ((a ++ b) ++ c)%string.
Proof.
  induction a as [| x a IH]; [reflexivity |].
  cbn [String.append]. now rewrite IH.
Qed.

Lemma prefix_of_app (a b : string) : prefix_of a (a ++ b)%string = true.
Proof. apply prefix_of_app_r, prefix_of_refl. Qed.



Lemma In_truncate_file_inv (name n' : string) (f : file) (d : directory) :
  In (n', f) (truncate_file name d) ->
  (n' = name /\ f = Unreadable) \/ In (n', f) d.
Proof.
  induction d as [| [n g] d IH]; cbn [truncate_file In].
  - intros [H | []]. injection H as <- <-. now left.
  - destruct (String.eqb_spec n name) as [-> | Hne]; cbn [In].
    + intros [H | H]; [injection H as <- <-; now left | right; now right].
    + intros [H | H]; [right; now left |].
      destruct (IH H) as [Hl | Hr]; [now left | right; now right].
Qed.

Lemma In_write_file_inv (name n' : string) (v : json) (f : file) (d : directory) :
  In (n', f) (write_file name v d) ->
  (n' = name /\ f = Text v) \/ In (n', f) d.
Proof.
  induction d as [| [n g] d IH]; cbn [write_file In].
  - intros [H | []]. injection H as <- <-. now left.
  - destruct (String.eqb_spec n name) as [-> | Hne]; cbn [In].
    + intros [H | H]; [injection H as <- <-; now left | right; now right].
    + intros [H | H]; [right; now left |].
      destruct (IH H) as [Hl | Hr]; [now left | right; now right].
Qed.



(** ** What a run leaves in the directory *)

(** A write cut short is the last thing a computation does: it raises. *)
Lemma save_one_shaped (h : Host) (ids : pyset) (t : json)
    (e : option datetime) (s : state) :
  exists evs,
    log (snd (save_one h ids t e s)) = log s ++ evs
    /\ Forall (shaped h) evs
    /\ (Forall intact evs \/ fst (save_one h ids t e s) = Raise UnicodeEncodeError).
Proof.
  destruct (save_one_cases h ids t e s)
    as [[ex H] | [(id & title & Hid & Hin & Ht) | (id & title & Hid & Hin & Ht)]].
  - exists []. rewrite H, app_nil_r.
    split; [reflexivity |]. split; [constructor | left; constructor].
  - exists [Skipping t]. rewrite (save_one_skip _ _ _ _ _ _ _ Hid Hin Ht).
    split; [reflexivity |]. split; [| left]; repeat constructor.
  - rewrite (save_one_new _ _ _ _ _ _ _ Hid Hin Ht).
    destruct (decode_detail (detail_endpoint h id)) as [content | ex].
    2:{ exists [DetailQuery id].
        split; [reflexivity |]. split; [| left]; repeat constructor. }
    destruct (name_and_date h (persisted content t)) as [[name d] | ex] eqn:Hnd.
    2:{ exists [DetailQuery id].
        split; [reflexivity |]. split; [| left]; repeat constructor. }
    destruct (encodable h (persisted content t)).
    + exists [DetailQuery id; Saved name (persisted content t)]. cbn [fst snd log].
      split; [now rewrite <- app_assoc |]. split.
      * constructor; [exact I |]. constructor; [now exists d | constructor].
      * left. repeat constructor.
    + exists [DetailQuery id; Truncated name]. cbn [fst snd log].
      split; [now rewrite <- app_assoc |]. split; [| now right].
      constructor; [exact I |].
      constructor; [now exists (persisted content t), d | constructor].
Qed.

Lemma save_page_shaped (h : Host) (ids : pyset) (page : list json) :
  forall (e : option datetime) (s : state),
  exists evs,
    log (snd (save_page h ids page e s)) = log s ++ evs
    /\ Forall (shaped h) evs
    /\ (Forall intact evs \/ fst (save_page h ids page e s) = Raise UnicodeEncodeError).
Proof.
  induction page as [| t rest IH]; intros e s.
  - exists []. cbn [save_page ret snd]. rewrite app_nil_r.
    split; [reflexivity |]. split; [constructor | left; constructor].
  - destruct (save_one_shaped h ids t e s) as (evs1 & Hlog1 & Hs1 & Hi1).
    cbn [save_page]; unfold bindM.
    destruct (save_one h ids t e s) as [[e1 | ex] s1]; cbn [fst snd] in *.
    + destruct Hi1 as [Hi1 | Hi1]; [| discriminate Hi1].
      destruct (IH e1 s1) as (evs2 & Hlog2 & Hs2 & Hi2).
      exists (evs1 ++ evs2). split; [now rewrite Hlog2, Hlog1, app_assoc |].
      split; [apply Forall_app; now split |].
      destruct Hi2 as [Hi2 | Hi2]; [left; apply Forall_app; now split | now right].
    + exists evs1. now repeat split.
Qed.

Lemma backfill_shaped (h : Host) (ids : pyset) (fuel : nat) :
  forall (last_date : datetime) (s : state),
  exists evs,
    log (state_of (backfill fuel h ids last_date s)) = log s ++ evs
    /\ Forall (shaped h) evs
    /\ (Forall intact evs
        \/ exists s', backfill fuel h ids last_date s = Crashed UnicodeEncodeError s').
Proof.
  induction fuel as [| fuel IH]; intros last_date s.
  - exists []. cbn [backfill state_of]. rewrite app_nil_r.
    split; [reflexivity |]. split; [constructor | left; constructor].
  - assert (Hbatch : exists evs1,
               log (snd (save_batch h ids last_date s)) = log s ++ evs1
               /\ Forall (shaped h) evs1
               /\ (Forall intact evs1
                   \/ fst (save_batch h ids last_date s) = Raise UnicodeEncodeError)).
    { rewrite save_batch_eq.
      assert (Hq : shaped h (ListQuery 25 (Some (strftime_iso last_date))))
        by (split; [reflexivity | now exists last_date]).
      destruct (page_of h last_date) as [[items |] | ex].
      2,3: exists [ListQuery 25 (Some (strftime_iso last_date))];
           split; [reflexivity | split; [now constructor | left; now constructor]].
      destruct (save_page_shaped h ids items None
                  (add_event (ListQuery 25 (Some (strftime_iso last_date))) s))
        as (evs & Hlog & Hs & Hi).
      exists (ListQuery 25 (Some (strftime_iso last_date)) :: evs).
      cbn [add_event log] in Hlog.
      destruct (save_page h ids items None _) as [[[e |] | ex] s']; cbn [fst snd] in *;
        (split; [now rewrite Hlog, <- app_assoc |]; split; [now constructor |]).
      - destruct Hi as [Hi | Hi]; [left; now constructor | discriminate Hi].
      - destruct Hi as [Hi | Hi]; [left; now constructor | discriminate Hi].
      - destruct Hi as [Hi | Hi]; [left; now constructor | now right]. }
    destruct Hbatch as (evs1 & Hlog1 & Hs1 & Hi1).
    cbn [backfill].
    destruct (save_batch h ids last_date s) as [[[next |] | ex] s1]; cbn [fst snd] in *.
    + destruct Hi1 as [Hi1 | Hi1]; [| discriminate Hi1].
      destruct (IH next s1) as (evs2 & Hlog2 & Hs2 & Hi2).
      exists (evs1 ++ evs2). split; [now rewrite Hlog2, Hlog1, app_assoc |].
      split; [apply Forall_app; now split |].
      destruct Hi2 as [Hi2 | Hi2]; [left; apply Forall_app; now split | now right].
    + exists evs1. cbn [state_of]. repeat split; try assumption.
      destruct Hi1 as [Hi1 | Hi1]; [now left | discriminate Hi1].
    + exists evs1. cbn [state_of]. repeat split; try assumption.
      destruct Hi1 as [Hi1 | Hi1]; [now left |].
      right. injection Hi1 as ->. now exists s1.
Qed.

(** The whole program: what it logs and writes from a state on. *)
Lemma main_trace (fuel : nat) (h : Host) (api_key : option string) (s : state) :
  exists evs,
    log (state_of (main fuel h api_key s)) = log s ++ evs
    /\ files (state_of (main fuel h api_key s)) = replay evs (files s)
    /\ Forall (shaped h) evs
    /\ (Forall intact evs
        \/ exists s', main fuel h api_key s = Crashed UnicodeEncodeError s').
Proof.
  assert (Hkey : forall c k,
             exists evs,
               log (state_of (main fuel h (Some (String c k)) s)) = log s ++ evs
               /\ files (state_of (main fuel h (Some (String c k)) s)) = replay evs (files s)
               /\ Forall (shaped h) evs
               /\ (Forall intact evs
                   \/ exists s', main fuel h (Some (String c k)) s
                                 = Crashed UnicodeEncodeError s')).
  { intros c k. unfold main, save_transcripts.
    set (scanned := scan_dates h (files s) None).
    set (s' := match snd scanned with
               | Some e => {| files := files s; log := log s ++ [ErrorReadingFiles e] |}
               | None => s
               end).
    set (last_date := match fst scanned with Some d => d | None => now h end).
    set (ids := scan_ids (files s') []).
    destruct (backfill_trace h ids fuel last_date s') as (evs & Hlog & Hfiles & _).
    destruct (backfill_shaped h ids fuel last_date s') as (evs' & Hlog' & Hshaped & Hi).
    rewrite Hlog in Hlog'. apply app_inv_head in Hlog'. subst evs'.
    subst s'. destruct (snd scanned) as [ex |]; cbn [files log] in *.
    - exists (ErrorReadingFiles ex :: evs).
      split; [now rewrite Hlog, <- app_assoc |].
      split; [exact Hfiles |]. split; [now constructor |].
      destruct Hi as [Hi | Hi]; [left; now constructor | now right].
    - now exists evs. }
  destruct api_key as [[| c k] |]; [| apply Hkey |];
    (exists [MissingApiKey]; cbn [main state_of files log replay];
     split; [reflexivity |]; split; [reflexivity |];
     split; [| left]; repeat constructor).
Qed.

Lemma write_file_names (name x : string) (v : json) (d : directory) :
  In x (map fst (write_file name v d)) <-> x = name \/ In x (map fst d).
Proof.
  induction d as [| [n f] d IH]; cbn [write_file map fst In].
  - split; [intros [H | []]; now left | intros [H | []]; now left].
  - destruct (String.eqb_spec n name) as [-> | Hne]; cbn [map fst In].
    + split.
      * intros [H | H]; [left; now symmetry | right; now right].
      * intros [H | [H | H]]; [left; now symmetry | now left | now right].
    + rewrite IH. tauto.
Qed.

Lemma truncate_file_names (name : string) (d : directory) :
  map fst (truncate_file name d) = map fst (write_file name JNull d).
Proof.
  induction d as [| [n f] d IH]; cbn [truncate_file write_file map fst]; [reflexivity |].
  destruct (n =? name)%string; cbn [map fst]; [reflexivity | now rewrite IH].
Qed.

Lemma NoDup_write_file (name : string) (v : json) (d : directory) :
  NoDup (map fst d) -> NoDup (map fst (write_file name v d)).
Proof.
  induction d as [| [n f] d IH]; cbn [write_file map fst]; intros Hnd.
  - constructor; [intros [] | constructor].
  - inversion Hnd as [| ? ? Hnot Hnd']; subst.
    destruct (String.eqb_spec n name) as [-> | Hne]; cbn [map fst].
    + now constructor.
    + constructor; [| now apply IH].
      rewrite write_file_names. intros [-> | H]; [now apply Hne | now apply Hnot].
Qed.

Lemma shaped_names_json (h : Host) (evs : list event) (n : string) :
  Forall (shaped h) evs -> In n (saved_names evs) -> endswith n ".json" = true.
Proof.
  induction 1 as [| ev evs Hev _ IH]; [intros [] |].
  destruct ev; cbn [saved_names]; try exact IH.
  - intros [<- | H]; [| now apply IH].
    destruct Hev as (d & Hd). exact (name_and_date_json h _ _ _ Hd).
  - intros [<- | H]; [| now apply IH].
    destruct Hev as (obj & d & Hd). exact (name_and_date_json h _ _ _ Hd).
Qed.

Lemma replay_invariants (h : Host) (evs : list event) :
  Forall (shaped h) evs ->
  forall d : directory,
    (NoDup (map fst d) -> NoDup (map fst (replay evs d)))
    /\ (forall n, In n (map fst d) -> In n (map fst (replay evs d)))
    /\ (forall n f, In (n, f) (replay evs d) ->
          In (n, f) d
          \/ exists obj x,
               name_and_date h obj = Ok (n, x) /\ (f = Text obj \/ f = Unreadable)).
Proof.
  induction 1 as [| ev evs Hev _ IH]; intros d.
  - cbn [replay]. repeat split; auto.
  - destruct ev; cbn [replay]; try apply IH.
    + destruct Hev as (x & Hx).
      destruct (IH (write_file filename transcript d)) as (Hnd & Hnames & Hcases).
      repeat split.
      * intros H. now apply Hnd, NoDup_write_file.
      * intros n H. apply Hnames, write_file_names. now right.
      * intros n f H. destruct (Hcases n f H) as [Hin | Hnew]; [| now right].
        destruct (In_write_file_inv _ _ _ _ _ Hin) as [[-> ->] | Hold]; [| now left].
        right. exists transcript, x. split; [exact Hx | now left].
    + destruct Hev as (obj & x & Hx).
      destruct (IH (truncate_file filename d)) as (Hnd & Hnames & Hcases).
      repeat split.
      * intros H. apply Hnd. rewrite truncate_file_names. now apply NoDup_write_file.
      * intros n H. apply Hnames. rewrite truncate_file_names.
        apply write_file_names. now right.
      * intros n f H. destruct (Hcases n f H) as [Hin | Hnew]; [| now right].
        destruct (In_truncate_file_inv _ _ _ _ Hin) as [[-> ->] | Hold]; [| now left].
        right. exists obj, x. split; [exact Hx | now right].
Qed.

(** X2: whatever the service answers and however the program stops, it
    deletes no file, keeps the file names unique, leaves every file whose
    name does not end in [.json] as it was, and every file found afterwards
    is an old one, unchanged, or lies under the name made from the date and
    title of an object of the run, and then it holds that object or, after
    a write that failed, is cut short. *)
Theorem run_keeps_directory_in_order (fuel : nat) (h : Host)
    (api_key : option string) (s : state) :
  NoDup (map fst (files s)) ->
  NoDup (map fst (files (state_of (main fuel h api_key s))))
  /\ (forall n, In n (map fst (files s)) ->
        In n (map fst (files (state_of (main fuel h api_key s)))))
  /\ (forall n f, In (n, f) (files s) -> endswith n ".json" = false ->
        In (n, f) (files (state_of (main fuel h api_key s))))
  /\ (forall n f, In (n, f) (files (state_of (main fuel h api_key s))) ->
        In (n, f) (files s)
        \/ exists obj d,
             name_and_date h obj = Ok (n, d) /\ (f = Text obj \/ f = Unreadable)).
Proof.
  intros Hnd.
  destruct (main_trace fuel h api_key s) as (evs & _ & Hfiles & Hshaped & _).
  rewrite Hfiles.
  destruct (replay_invariants h evs Hshaped (files s)) as (H1 & H2 & H3).
  split; [now apply H1 |]. split; [exact H2 |]. split; [| exact H3].
  intros n f Hin Hn. apply replay_keeps; [exact Hin |].
  intros Hsaved. rewrite (shaped_names_json h evs n Hshaped Hsaved) in Hn. discriminate.
Qed.

Lemma run_keeps_directory_in_order_witness :
  NoDup (map fst (files (state_of (main 5 Sample.two_pages (Some "secret")
                                     {| files := [("README.md", Unreadable)]; log := [] |}))))
  /\ (forall n, In n (map fst [("README.md", Unreadable)]) ->
        In n (map fst (files (state_of (main 5 Sample.two_pages (Some "secret")
                                     {| files := [("README.md", Unreadable)]; log := [] |})))))
  /\ (forall n f, In (n, f) [("README.md", Unreadable)] -> endswith n ".json" = false ->
        In (n, f) (files (state_of (main 5 Sample.two_pages (Some "secret")
                                     {| files := [("README.md", Unreadable)]; log := [] |}))))
  /\ (forall n f,
        In (n, f) (files (state_of (main 5 Sample.two_pages (Some "secret")
                                     {| files := [("README.md", Unreadable)]; log := [] |}))) ->
        In (n, f) [("README.md", Unreadable)]
        \/ exists obj d,
             name_and_date Sample.two_pages obj = Ok (n, d)
             /\ (f = Text obj \/ f = Unreadable)).
Proof.
  apply (run_keeps_directory_in_order 5 Sample.two_pages (Some "secret")
           {| files := [("README.md", Unreadable)]; log := [] |}).
  cbn. constructor; [intros [] | constructor].
Defined.





(** ** The Existing-ID Set *)

Lemma file_id_Some (entry : string * file) (i : json) :
  file_id entry = Some i <->
  exists data, snd entry = Text data /\ endswith (fst entry) ".json" = true
               /\ getitem data "id" = Ok i /\ hashable i = true.
Proof.
  unfold file_id. destruct entry as [name f]; cbn [fst snd].
  destruct (endswith name ".json").
  2:{ split; [discriminate | intros (data & _ & H & _); discriminate]. }
  destruct f as [data |]; cbn [load bind].
  2:{ split; [discriminate | intros (data & H & _); discriminate]. }
  destruct (getitem data "id") as [id | ex] eqn:Hg.
  2:{ split; [discriminate |]. intros (data' & H & _ & H' & _).
      injection H as <-. congruence. }
  destruct (hashable id) eqn:Hh.
  - split.
    + intros H; injection H as <-. now exists data.
    + intros (data' & H & _ & H' & _). injection H as <-. congruence.
  - split; [discriminate |].
    intros (data' & H & _ & H' & Hi). injection H as <-. congruence.
Qed.

(** X4: a value is in the Existing-ID Set exactly when some file of the
    directory whose name ends in [.json] parses to an object whose [id] is
    hashable and equal to it; files with another name, files that do not
    parse and objects without an [id] contribute nothing. *)
Theorem existing_ids_are_ids_of_readable_json_files (x : json) (d : directory) :
  mem x (scan_ids d []) = true <->
  exists name data i,
    In (name, Text data) d /\ endswith name ".json" = true
    /\ getitem data "id" = Ok i /\ hashable i = true /\ Py.eqb x i = true.
Proof.
  rewrite mem_scan_ids. split.
  - intros [H | ([name f] & i & Hin & Hid & Hx)]; [discriminate H |].
    apply file_id_Some in Hid as (data & Hf & Hn & Hi & Hh). cbn [fst snd] in *.
    subst f. now exists name, data, i.
  - intros (name & data & i & Hin & Hn & Hi & Hh & Hx).
    right. exists (name, Text data), i. repeat split; try assumption.
    apply file_id_Some. now exists data.
Qed.

Lemma eqb_sym (a b : json) : Py.eqb a b = Py.eqb b a.
Proof.
  destruct a, b; cbn; try reflexivity; try apply Z.eqb_sym; apply String.eqb_sym.
Qed.

Lemma mem_false_In (x y : json) (l : pyset) :
  mem x l = false -> In y l -> Py.eqb x y = false.
Proof.
  unfold mem. intros H Hin.
  destruct (Py.eqb x y) eqn:E; [| reflexivity].
  assert (Hex : existsb (Py.eqb x) l = true)
    by (apply existsb_exists; now exists y).
  congruence.
Qed.

Lemma scan_ids_distinct (d : directory) :
  forall acc : pyset,
    (forall i, In i (ids_of d) -> mem i acc = false) ->
    distinct (ids_of d) = true ->
    scan_ids d acc = acc ++ ids_of d.
Proof.
  induction d as [| entry d IH]; intros acc Hacc Hd.
  - cbn [scan_ids ids_of]. now rewrite app_nil_r.
  - cbn [scan_ids ids_of] in *. rewrite scan_file_spec.
    destruct (file_id entry) as [i |]; [| now apply IH].
    cbn [distinct] in Hd. apply andb_true_iff in Hd as [Hi Hd].
    apply negb_true_iff in Hi.
    rewrite (Hacc i (or_introl eq_refl)).
    rewrite IH; [now rewrite <- app_assoc | | exact Hd].
    intros j Hj. unfold mem. rewrite existsb_app. cbn [existsb].
    rewrite orb_false_r. apply orb_false_iff. split.
    + apply Hacc. now right.
    + rewrite eqb_sym. exact (mem_false_In i j _ Hi Hj).
Qed.

(** X5: when the readable [.json] files of the directory carry ids no two
    of which are equal, the Existing-ID Set holds exactly these ids, one
    member per file, in listing order. *)
Theorem existing_ids_one_per_file (d : directory) :
  distinct (ids_of d) = true ->
  scan_ids d [] = ids_of d
  /\ List.length (scan_ids d []) = List.length (ids_of d).
Proof.
  intros Hd.
  assert (H : scan_ids d [] = ids_of d).
  { rewrite (scan_ids_distinct d []); [reflexivity | reflexivity | exact Hd]. }
  split; [exact H | now rewrite H].
Qed.

Lemma existing_ids_one_per_file_witness :
  scan_ids (("notes.json", Unreadable) :: ("README.md", Text Sample.kickoff)
            :: files Sample.after_two_pages) []
  = ids_of (("notes.json", Unreadable) :: ("README.md", Text Sample.kickoff)
            :: files Sample.after_two_pages)
  /\ List.length (scan_ids (("notes.json", Unreadable) :: ("README.md", Text Sample.kickoff)
                       :: files Sample.after_two_pages) [])
     = List.length (ids_of (("notes.json", Unreadable) :: ("README.md", Text Sample.kickoff)
                       :: files Sample.after_two_pages)).
Proof.
  exact (existing_ids_one_per_file
           (("notes.json", Unreadable) :: ("README.md", Text Sample.kickoff)
            :: files Sample.after_two_pages) eq_refl).
Defined.

Lemma save_one_ext (h : Host) (ids ids' : pyset) (t : json)
    (e : option datetime) (s : state) :
  (forall x, mem x ids = mem x ids') ->
  save_one h ids t e s = save_one h ids' t e s.
Proof.
  intros Hmem. unfold save_one, bindM, lift.
  destruct (getitem t "id") as [id | ex]; [| reflexivity].
  assert (H : set_contains id ids = set_contains id ids')
    by (unfold set_contains; now rewrite Hmem).
  now rewrite H.
Qed.

Lemma save_page_ext (h : Host) (ids ids' : pyset) (page : list json) :
  (forall x, mem x ids = mem x ids') ->
  forall (e : option datetime) (s : state),
    save_page h ids page e s = save_page h ids' page e s.
Proof.
  intros Hmem. induction page as [| t rest IH]; intros e s; [reflexivity |].
  cbn [save_page]; unfold bindM. rewrite (save_one_ext h ids ids' t e s Hmem).
  destruct (save_one h ids' t e s) as [[e1 | ex] s1]; [apply IH | reflexivity].
Qed.

Lemma backfill_ext (h : Host) (ids ids' : pyset) (fuel : nat) :
  (forall x, mem x ids = mem x ids') ->
  forall (last_date : datetime) (s : state),
    backfill fuel h ids last_date s = backfill fuel h ids' last_date s.
Proof.
  intros Hmem. induction fuel as [| fuel IH]; intros last_date s; [reflexivity |].
  cbn [backfill]. rewrite !save_batch_eq.
  destruct (page_of h last_date) as [[items |] | ex]; try reflexivity.
  rewrite (save_page_ext h ids ids' items Hmem).
  destruct (save_page h ids' items None _) as [[[e |] | ex] s']; try reflexivity.
  apply IH.
Qed.

(** X6: the order in which the directory is listed does not matter for the
    Existing-ID Set nor for what the loop does with it: two listings of the
    same files give sets with the same members, and the loop run with one
    or the other behaves the same. *)
Theorem listing_order_does_not_matter (d d' : directory) :
  Permutation d d' ->
  (forall x, mem x (scan_ids d []) = mem x (scan_ids d' []))
  /\ (forall (fuel : nat) (h : Host) (last_date : datetime) (s : state),
        backfill fuel h (scan_ids d []) last_date s
        = backfill fuel h (scan_ids d' []) last_date s).
Proof.
  intros Hperm.
  assert (Hmem : forall x, mem x (scan_ids d []) = mem x (scan_ids d' [])).
  { intros x. apply eq_iff_eq_true. rewrite !mem_scan_ids.
    split; (intros [H | (entry & i & Hin & Hrest)]; [now left |];
            right; exists entry, i; split; [| exact Hrest]).
    - exact (Permutation_in _ Hperm Hin).
    - exact (Permutation_in _ (Permutation_sym Hperm) Hin). }
  split; [exact Hmem |].
  intros fuel h last_date s. now apply backfill_ext.
Qed.

Lemma listing_order_does_not_matter_witness :
  (forall x,
     mem x (scan_ids [("2023-11-14_QA PlanReview.json", Text Sample.review);
                      ("2023-07-22_Weekly.json", Text Sample.weekly)] [])
     = mem x (scan_ids [("2023-07-22_Weekly.json", Text Sample.weekly);
                        ("2023-11-14_QA PlanReview.json", Text Sample.review)] []))
  /\ (forall (fuel : nat) (h : Host) (last_date : datetime) (s : state),
        backfill fuel h
          (scan_ids [("2023-11-14_QA PlanReview.json", Text Sample.review);
                     ("2023-07-22_Weekly.json", Text Sample.weekly)] []) last_date s
        = backfill fuel h
            (scan_ids [("2023-07-22_Weekly.json", Text Sample.weekly);
                       ("2023-11-14_QA PlanReview.json", Text Sample.review)] [])
            last_date s).
Proof.
  apply (listing_order_does_not_matter
           [("2023-11-14_QA PlanReview.json", Text Sample.review);
            ("2023-07-22_Weekly.json", Text Sample.weekly)]
           [("2023-07-22_Weekly.json", Text Sample.weekly);
            ("2023-11-14_QA PlanReview.json", Text Sample.review)]).
  apply perm_swap.
Defined.

(** ** The replies of the service *)

Lemma end_of_data_no_page (r : http_result) :
  end_of_data r -> (result <~ decode_listing r ;; decode_page result) = Ok None.
Proof.
  intros H. destruct H as [| status | status env errs He | status env He Hd
                           | status env dat He Hd Ht | status env dat tr He Hd Ht Hf];
    try reflexivity.
  - cbn [decode_listing contains bind]. rewrite He. cbn [bind getitem].
    now rewrite He.
  - cbn [decode_listing contains bind]. rewrite He. cbn [bind].
    unfold decode_page, no_more. destruct env as [| kv env]; [reflexivity |].
    cbn [truthy negb contains bind]. now rewrite Hd.
  - cbn [decode_listing contains bind]. rewrite He. cbn [bind].
    unfold decode_page, no_more. destruct env as [| kv env]; [discriminate Hd |].
    cbn [truthy negb contains getitem bind]. rewrite Hd. cbn [negb bind contains].
    now rewrite Ht.
  - cbn [decode_listing contains bind]. rewrite He. cbn [bind].
    unfold decode_page, no_more. destruct env as [| kv env]; [discriminate Hd |].
    cbn [truthy negb contains getitem bind]. rewrite Hd. cbn [negb bind contains getitem].
    rewrite Ht. cbn [negb bind]. now rewrite Hf.
Qed.

(** X7: the loop ends at once, with the listing query as its only trace and
    no file touched, when the listing cannot be had or has nothing in it: a
    transport failure, a body that is not JSON, an [errors] key, no [data]
    key, no [transcripts] key, or a [transcripts] value that is empty or
    null.  The HTTP status plays no part. *)
Theorem loop_ends_at_end_of_data (h : Host) (ids : pyset) (last_date : datetime)
    (s : state) (fuel : nat) :
  end_of_data (list_endpoint h 25 (Some (strftime_iso last_date))) ->
  backfill (S fuel) h ids last_date s
  = Finished {| files := files s;
                log := log s ++ [ListQuery 25 (Some (strftime_iso last_date))] |}.
Proof.
  intros H. cbn [backfill]. rewrite save_batch_eq.
  unfold page_of. now rewrite (end_of_data_no_page _ H).
Qed.

Lemma loop_ends_at_end_of_data_witness :
  backfill 4 Sample.two_pages [] 0 Sample.after_two_pages
  = Finished {| files := files Sample.after_two_pages;
                log := log Sample.after_two_pages
                       ++ [ListQuery 25 (Some (strftime_iso 0))] |}.
Proof.
  apply (loop_ends_at_end_of_data Sample.two_pages [] 0 Sample.after_two_pages 3).
  apply (eod_empty 200 _ [("transcripts", JArr [])] (JArr [])); reflexivity.
Defined.

Lemma contains_raises (k : string) (v : json) (ex : exn) :
  contains k v = Raise ex ->
  ex = TypeError /\ match v with JNull | JBool _ | JInt _ => True | _ => False end.
Proof.
  destruct v; cbn [contains]; intros H; try discriminate H;
    injection H as <-; now split.
Qed.

Lemma getitem_raises (v : json) (k : string) (ex : exn) :
  getitem v k = Raise ex -> ex = TypeError \/ ex = KeyError k.
Proof.
  destruct v as [| | | | | fields]; cbn [getitem]; intros H;
    try (injection H as <-; now left).
  destruct (lookup k fields); [discriminate H | injection H as <-; now right].
Qed.

(** X8: the detail fetch lets an exception out only for a reply with status
    200 and a JSON body.  When the body is an object it has no [errors] key
    and the exception tells what is missing: [KeyError] for [data], or for
    [transcript] inside a [data] object, [TypeError] when [data] is not an
    object.  When the body is not an object the exception is a [TypeError],
    also when it is a list or a string that contains [errors], because the
    message then reads [data["errors"]].  A transport failure, any other
    status and a body that is not JSON never raise. *)
Theorem detail_fetch_raises_only_on_malformed_200 (h : Host) (id : json)
    (s : state) (ex : exn) :
  fst (get_transcript_content h id s) = Raise ex ->
  exists data,
    detail_endpoint h id = Response 200 (Some data)
    /\ match data with
       | JObj env =>
           lookup "errors" env = None
           /\ match lookup "data" env with
              | None => ex = KeyError "data"
              | Some (JObj dat) =>
                  lookup "transcript" dat = None /\ ex = KeyError "transcript"
              | Some _ => ex = TypeError
              end
       | _ => ex = TypeError
       end.
Proof.
  rewrite get_transcript_content_eq. cbn [fst]. unfold decode_detail.
  destruct (detail_endpoint h id) as [| status body]; [discriminate |].
  destruct (Z.eqb_spec status 200) as [-> | Hne]; cbn [negb]; [| discriminate].
  destruct body as [data |]; [| discriminate].
  intros H. exists data. split; [reflexivity |].
  destruct data as [| b | n | str | items | env]; cbn [contains bind getitem] in H;
    try (injection H as <-; reflexivity).
  - destruct (substring_of "errors" str); cbn [bind] in H; now injection H as <-.
  - destruct (existsb (Py.eqb (JStr "errors")) items); cbn [bind] in H;
      now injection H as <-.
  - destruct (lookup "errors" env) as [errs |] eqn:He; cbn [bind] in H.
    + discriminate H.
    + split; [reflexivity |].
      destruct (lookup "data" env) as [d |]; cbn [bind] in H.
      * destruct d as [| b | n | str | items | dat]; cbn [getitem] in H;
          try (injection H as <-; reflexivity).
        destruct (lookup "transcript" dat); [discriminate H |].
        injection H as <-. now split.
      * now injection H as <-.
Qed.

Lemma detail_fetch_raises_only_on_malformed_200_witness :
  exists data,
    detail_endpoint Sample.bare_detail (JStr "a") = Response 200 (Some data)
    /\ match data with
       | JObj env =>
           lookup "errors" env = None
           /\ match lookup "data" env with
              | None => KeyError "data" = KeyError "data"
              | Some (JObj dat) =>
                  lookup "transcript" dat = None
                  /\ KeyError "data" = KeyError "transcript"
              | Some _ => KeyError "data" = TypeError
              end
       | _ => KeyError "data" = TypeError
       end.
Proof.
  exact (detail_fetch_raises_only_on_malformed_200 Sample.bare_detail (JStr "a")
           Sample.empty (KeyError "data") eq_refl).
Defined.

(** X9: the listing fetch does not look at the HTTP status: a reply with
    any status whose body is a JSON object without an [errors] key is handed
    to the loop as it is.  The only exception it lets out is a [TypeError],
    and only for a body that is not an object: [null], a boolean, a number,
    or a list or string that contains [errors] (the message then reads
    [data["errors"]]). *)
Theorem listing_fetch_ignores_status (h : Host) (limit : Z)
    (to_date : option datetime) (s : state) (status : Z)
    (env : list (string * json)) :
  list_endpoint h (Z.min limit 25) (option_map strftime_iso to_date)
    = Response status (Some (JObj env)) ->
  lookup "errors" env = None ->
  fst (get_transcripts h limit to_date s) = Ok (JObj env)
  /\ forall (h' : Host) (ex : exn),
       fst (get_transcripts h' limit to_date s) = Raise ex ->
       ex = TypeError
       /\ exists status' data,
            list_endpoint h' (Z.min limit 25) (option_map strftime_iso to_date)
              = Response status' (Some data)
            /\ match data with
               | JObj _ => False
               | JArr items => existsb (Py.eqb (JStr "errors")) items = true
               | JStr str => substring_of "errors" str = true
               | _ => True
               end.
Proof.
  intros Hreply Herr. rewrite get_transcripts_eq. cbn [fst].
  split.
  - rewrite Hreply. cbn [decode_listing contains bind]. now rewrite Herr.
  - intros h' ex. rewrite get_transcripts_eq. cbn [fst]. unfold decode_listing.
    destruct (list_endpoint h' _ _) as [| status' [data |]]; try discriminate.
    intros H.
    assert (Hex : ex = TypeError
                  /\ match data with
                     | JObj _ => False
                     | JArr items => existsb (Py.eqb (JStr "errors")) items = true
                     | JStr str => substring_of "errors" str = true
                     | _ => True
                     end).
    { destruct data as [| b | n | str | items | env']; cbn [contains bind getitem] in H;
        try (injection H as <-; now split).
      - destruct (substring_of "errors" str); cbn [bind] in H; [| discriminate H].
        injection H as <-. now split.
      - destruct (existsb (Py.eqb (JStr "errors")) items); cbn [bind] in H;
          [| discriminate H].
        injection H as <-. now split.
      - destruct (lookup "errors" env') as [errs |] eqn:He; cbn [bind] in H.
        + discriminate H.
        + discriminate H. }
    destruct Hex as [Hex Hdata]. split; [exact Hex |]. now exists status', data.
Qed.

Lemma listing_fetch_ignores_status_witness :
  fst (get_transcripts
         {| list_endpoint := fun _ _ => Response 503 (Some (JObj [("data", JNull)]));
            detail_endpoint := fun _ => RequestException;
            now := 0; utcoffset := fun _ => 0;
            encodable := fun _ => true |} 40 None Sample.empty)
  = Ok (JObj [("data", JNull)])
  /\ forall (h' : Host) (ex : exn),
       fst (get_transcripts h' 40 None Sample.empty) = Raise ex ->
       ex = TypeError
       /\ exists status' data,
            list_endpoint h' (Z.min 40 25) (option_map strftime_iso None)
              = Response status' (Some data)
            /\ match data with
               | JObj _ => False
               | JArr items => existsb (Py.eqb (JStr "errors")) items = true
               | JStr str => substring_of "errors" str = true
               | _ => True
               end.
Proof.
  exact (listing_fetch_ignores_status
           {| list_endpoint := fun _ _ => Response 503 (Some (JObj [("data", JNull)]));
              detail_endpoint := fun _ => RequestException;
              now := 0; utcoffset := fun _ => 0;
              encodable := fun _ => true |} 40 None Sample.empty 503 [("data", JNull)]
           eq_refl eq_refl).
Defined.

Example detail_reply_listing_errors_raises :
  fst (get_transcript_content
         {| list_endpoint := fun _ _ => RequestException;
            detail_endpoint := fun _ => Response 200 (Some (JArr [JStr "errors"]));
            now := 0; utcoffset := fun _ => 0;
            encodable := fun _ => true |} (JStr "a") Sample.empty)
  = Raise TypeError.
Proof. reflexivity. Qed.

(** ** Runs that do not end, records that cannot be walked *)

Lemma save_one_value (h : Host) (ids : pyset) (t : json) (e : option datetime)
    (s s' : state) :
  fst (save_one h ids t e s) = fst (save_one h ids t e s').
Proof.
  destruct (getitem t "id") as [id | ex] eqn:Hid.
  2:{ unfold save_one, bindM, lift. now rewrite Hid. }
  destruct (set_contains id ids) as [[|] | ex] eqn:Hin.
  3:{ unfold save_one, bindM, lift. now rewrite Hid, Hin. }
  - destruct (getitem t "title") as [title | ex] eqn:Ht.
    + now rewrite !(save_one_skip _ _ _ _ _ _ _ Hid Hin Ht).
    + unfold save_one, bindM, lift. now rewrite Hid, Hin, Ht.
  - destruct (getitem t "title") as [title | ex] eqn:Ht.
    + rewrite !(save_one_new _ _ _ _ _ _ _ Hid Hin Ht).
      destruct (decode_detail (detail_endpoint h id)) as [content | ex]; [| reflexivity].
      destruct (name_and_date h (persisted content t)) as [[name d] | ex]; [| reflexivity].
      destruct (encodable h (persisted content t)); reflexivity.
    + unfold save_one, bindM, lift. now rewrite Hid, Hin, Ht.
Qed.

Lemma save_page_value (h : Host) (ids : pyset) (page : list json) :
  forall (e : option datetime) (s s' : state),
    fst (save_page h ids page e s) = fst (save_page h ids page e s').
Proof.
  induction page as [| t rest IH]; intros e s s'; [reflexivity |].
  cbn [save_page]; unfold bindM.
  pose proof (save_one_value h ids t e s s') as H.
  destruct (save_one h ids t e s) as [r1 s1], (save_one h ids t e s') as [r1' s1'].
  cbn [fst] in H. subst r1'.
  destruct r1 as [e1 | ex]; [apply IH | reflexivity].
Qed.

Lemma save_batch_value (h : Host) (ids : pyset) (last_date : datetime)
    (s s' : state) :
  fst (save_batch h ids last_date s) = fst (save_batch h ids last_date s').
Proof.
  rewrite !save_batch_eq.
  destruct (page_of h last_date) as [[items |] | ex]; try reflexivity.
  pose proof (save_page_value h ids items None
                (add_event (ListQuery 25 (Some (strftime_iso last_date))) s)
                (add_event (ListQuery 25 (Some (strftime_iso last_date))) s')) as H.
  destruct (save_page h ids items None
              (add_event (ListQuery 25 (Some (strftime_iso last_date))) s)) as [r1 s1].
  destruct (save_page h ids items None
              (add_event (ListQuery 25 (Some (strftime_iso last_date))) s')) as [r1' s1'].
  cbn [fst] in H. subst r1'.
  destruct r1 as [[e |] | ex]; reflexivity.
Qed.

(** X10: nothing in the loop checks that the watermark moves.  If one turn
    of the loop started at a watermark ends with the same watermark (the
    service lists a new record dated one second after it), every further
    turn does the same: the loop never ends, and each turn adds at least its
    listing query to the log. *)
Theorem loop_never_ends_when_watermark_stands_still (h : Host) (ids : pyset)
    (d : datetime) (s0 s1 : state) :
  save_batch h ids d s0 = (Ok (Some d), s1) ->
  forall (fuel : nat) (s : state),
  exists s',
    backfill fuel h ids d s = Turning d s'
    /\ (List.length (log s) + fuel <= List.length (log s'))%nat.
Proof.
  intros Hturn. induction fuel as [| fuel IH]; intros s.
  - exists s. split; [reflexivity | lia].
  - cbn [backfill].
    pose proof (save_batch_value h ids d s s0) as Hval.
    destruct (save_batch_trace h ids d s) as (evs & Hlog & _).
    rewrite Hturn in Hval.
    destruct (save_batch h ids d s) as [r s2]. cbn [fst snd] in *. subst r.
    destruct (IH s2) as (s' & Hrun & Hlen).
    exists s'. split; [exact Hrun |].
    rewrite Hlog, length_app in Hlen. cbn [List.length] in Hlen. lia.
Qed.

Lemma loop_never_ends_when_watermark_stands_still_witness :
  exists s',
    backfill 7 Sample.stuck [] (sub_seconds 1700000000500 1) Sample.empty
    = Turning (sub_seconds 1700000000500 1) s'
    /\ (List.length (log Sample.empty) + 7 <= List.length (log s'))%nat.
Proof.
  exact (loop_never_ends_when_watermark_stands_still Sample.stuck []
           (sub_seconds 1700000000500 1) Sample.empty _ eq_refl 7 Sample.empty).
Defined.

(** X11: a record that has no [id], an [id] that cannot be hashed (a list
    or an object), or no [title] cannot be walked: met first on a page, it
    ends the run with the exception before anything is fetched or written,
    and this even when the record is already saved, because the skip
    message reads the title. *)
Theorem record_without_id_or_title_ends_run (h : Host) (ids : pyset)
    (last_date : datetime) (t : json) (rest : list json) (ex : exn)
    (s : state) (fuel : nat) :
  page_of h last_date = Ok (Some (t :: rest)) ->
  getitem t "id" = Raise ex
  \/ (exists id, getitem t "id" = Ok id /\ hashable id = false /\ ex = TypeError)
  \/ (exists id, getitem t "id" = Ok id /\ hashable id = true
                 /\ getitem t "title" = Raise ex) ->
  backfill (S fuel) h ids last_date s
  = Crashed ex {| files := files s;
                  log := log s ++ [ListQuery 25 (Some (strftime_iso last_date))] |}.
Proof.
  intros Hpage Hbad. cbn [backfill]. rewrite save_batch_eq, Hpage.
  cbn [save_page]; unfold bindM.
  assert (Hone : forall s', save_one h ids t None s' = (Raise ex, s')).
  { intros s'. unfold save_one, bindM, lift.
    destruct Hbad as [Hid | [(id & Hid & Hh & ->) | (id & Hid & Hh & Ht)]].
    - now rewrite Hid.
    - rewrite Hid. unfold set_contains. now rewrite Hh.
    - rewrite Hid. unfold set_contains. rewrite Hh.
      destruct (mem id ids); now rewrite Ht. }
  now rewrite Hone.
Qed.

Lemma record_without_id_or_title_ends_run_witness :
  backfill 2
    {| list_endpoint := fun _ _ =>
         Sample.envelope [JObj [("id", JStr "a"); ("date", JInt 1700000000500)]];
       detail_endpoint := fun _ => RequestException;
       now := 0; utcoffset := fun _ => 0;
            encodable := fun _ => true |} [JStr "a"] 0 Sample.has_review
  = Crashed (KeyError "title")
      {| files := files Sample.has_review;
         log := log Sample.has_review ++ [ListQuery 25 (Some (strftime_iso 0))] |}.
Proof.
  apply (record_without_id_or_title_ends_run _ [JStr "a"] 0
           (JObj [("id", JStr "a"); ("date", JInt 1700000000500)]) []
           (KeyError "title") Sample.has_review 1).
  - reflexivity.
  - right; right. exists (JStr "a"). repeat split; reflexivity.
Defined.

(** ** Titles that are already safe, and where [main] starts *)

Lemma retain_id (t : string) : all_chars retained t = true -> retain t = t.
Proof.
  induction t as [| c t IH]; [reflexivity |].
  cbn [all_chars retain]. intros H. apply andb_true_iff in H as [Hc Ht].
  now rewrite Hc, (IH Ht).
Qed.

(** X12: when the object that [save_one] writes has a title made only of
    allowed characters and at most 50 characters long, the title stands in
    the file name unchanged, between the date with its underscore and
    [.json]; and sanitising a sanitised title changes nothing more. *)
Theorem safe_short_title_is_kept (h : Host) (ids : pyset) (t id : json)
    (e e' : option datetime) (s s' : state) (title : string) :
  getitem t "id" = Ok id ->
  set_contains id ids = Ok false ->
  save_one h ids t e s = (Ok e', s') ->
  all_chars retained title = true ->
  (String.length title <= 50)%nat ->
  (exists (name : string) (obj : json) (d : datetime),
     log s' = log s ++ [DetailQuery id; Saved name obj]
     /\ files s' = write_file name obj (files s)
     /\ (getitem obj "title" = Ok (JStr title) ->
         file_date h (Text obj) = Ok d
         /\ name = (strftime_date d ++ "_" ++ title ++ ".json")%string))
  /\ forall x : string,
       (y <~ safe_title (JStr x) ;; safe_title (JStr y)) = safe_title (JStr x).
Proof.
  intros Hid Hnew Hsave Hall Hlen. split.
  - destruct (getitem t "title") as [ti | ex] eqn:Ht.
    2:{ unfold save_one, bindM, lift in Hsave. rewrite Hid, Hnew, Ht in Hsave.
        discriminate. }
    rewrite (save_one_new _ _ _ _ _ _ _ Hid Hnew Ht) in Hsave.
    destruct (decode_detail (detail_endpoint h id)) as [content | ex]; [| discriminate].
    destruct (name_and_date h (persisted content t)) as [[name d] | ex] eqn:Hnd;
      [| discriminate].
    destruct (encodable h (persisted content t)); [| discriminate].
    injection Hsave as _ <-. cbn [files log].
    exists name, (persisted content t), d.
    split; [now rewrite <- app_assoc |]. split; [reflexivity |].
    intros Htitle.
    destruct (name_and_date_str_title h _ name title d Hnd Htitle) as [Hname Hdate].
    split; [exact Hdate |].
    now rewrite Hname, (retain_id title Hall), (take_short 50 title Hlen).
  - intros x. rewrite !safe_title_str. cbn [bind]. rewrite safe_title_str.
    now rewrite (retain_id _ (retain_all_retained x)).
Qed.

Lemma safe_short_title_is_kept_witness :
  (exists (name : string) (obj : json) (d : datetime),
     log {| files := [("2023-07-22_Weekly.json", Text Sample.weekly)];
            log := [DetailQuery (JStr "b");
                    Saved "2023-07-22_Weekly.json" Sample.weekly] |}
     = log Sample.empty ++ [DetailQuery (JStr "b"); Saved name obj]
     /\ files {| files := [("2023-07-22_Weekly.json", Text Sample.weekly)];
                 log := [DetailQuery (JStr "b");
                         Saved "2023-07-22_Weekly.json" Sample.weekly] |}
        = write_file name obj (files Sample.empty)
     /\ (getitem obj "title" = Ok (JStr "Weekly") ->
         file_date Sample.two_pages (Text obj) = Ok d
         /\ name = (strftime_date d ++ "_" ++ "Weekly" ++ ".json")%string))
  /\ forall x : string,
       (y <~ safe_title (JStr x) ;; safe_title (JStr y)) = safe_title (JStr x).
Proof.
  apply (safe_short_title_is_kept Sample.two_pages [] Sample.weekly (JStr "b")
           None (Some 1690000000000) Sample.empty _ "Weekly");
    try reflexivity.
  cbn. lia.
Defined.

(** X13: started with a key over a directory whose [.json] files all carry
    a date, [main] sends its first listing query with the least of these
    dates itself as the watermark (not one second before it), and with the
    limit 25. *)
Theorem main_resumes_from_earliest_saved_date (fuel : nat) (h : Host)
    (c : ascii) (key : string) (s : state) (m : datetime) :
  all_dated h (files s) = true ->
  In m (valid_dates h (files s)) ->
  Forall (fun x => m <= x) (valid_dates h (files s)) ->
  exists evs,
    log (state_of (main (S fuel) h (Some (String c key)) s))
    = log s ++ ListQuery 25 (Some (strftime_iso m)) :: evs.
Proof.
  intros Hall Hin Hmin.
  unfold main, save_transcripts.
  rewrite (scan_dates_all_dated h _ Hall None). cbn [fst snd].
  pose proof (fold_track_least (valid_dates h (files s)) None) as Hleast.
  destruct (fold_left _ (valid_dates h (files s)) None) as [m' |].
  2:{ destruct Hleast as [Hnil _]. rewrite Hnil in Hin. destruct Hin. }
  destruct Hleast as ([Hin' | Hin'] & Hmin' & _); [| discriminate].
  assert (Heq : m' = m).
  { rewrite Forall_forall in Hmin, Hmin'.
    pose proof (Hmin m' Hin'). pose proof (Hmin' m Hin). lia. }
  subst m'. cbn [backfill].
  destruct (save_batch_trace h (scan_ids (files s) []) m s) as (evs1 & Hlog1 & _).
  destruct (save_batch h (scan_ids (files s) []) m s) as [[[next |] | ex] s1];
    cbn [snd state_of] in *.
  - destruct (backfill_trace h (scan_ids (files s) []) fuel next s1) as (evs2 & Hlog2 & _).
    exists (evs1 ++ evs2). rewrite Hlog2, Hlog1, <- app_assoc. reflexivity.
  - now exists evs1.
  - now exists evs1.
Qed.

Lemma main_resumes_from_earliest_saved_date_witness :
  exists evs,
    log (state_of (main 3 Sample.two_pages (Some "secret") Sample.after_two_pages))
    = log Sample.after_two_pages
      ++ ListQuery 25 (Some (strftime_iso 1690000000000)) :: evs.
Proof.
  apply (main_resumes_from_earliest_saved_date 2 Sample.two_pages "s" "ecret"
           Sample.after_two_pages 1690000000000).
  - reflexivity.
  - cbn. right. now left.
  - change (Forall (fun x => 1690000000000 <= x) [1700000000500; 1690000000000]).
    constructor; [lia |]. constructor; [lia | constructor].
Defined.

(** ** The log and the disk *)

Lemma read_file_write_file_other (name n : string) (v : json) (d : directory) :
  n <> name -> read_file n (write_file name v d) = read_file n d.
Proof.
  intros Hne. induction d as [| [n' f] d IH]; cbn [write_file read_file].
  - destruct (String.eqb_spec name n) as [-> | _]; [contradiction | reflexivity].
  - destruct (String.eqb_spec n' name) as [-> | Hn']; cbn [read_file].
    + destruct (String.eqb_spec name n) as [-> | _]; [contradiction | reflexivity].
    + now rewrite IH.
Qed.

Lemma read_file_truncate_file (name : string) (d : directory) :
  read_file name (truncate_file name d) = Some Unreadable.
Proof.
  induction d as [| [n f] d IH]; cbn [truncate_file read_file].
  - now rewrite String.eqb_refl.
  - destruct (n =? name)%string eqn:E; cbn [read_file]; rewrite E; [reflexivity | exact IH].
Qed.

Lemma read_file_truncate_file_other (name n : string) (d : directory) :
  n <> name -> read_file n (truncate_file name d) = read_file n d.
Proof.
  intros Hne. induction d as [| [n' f] d IH]; cbn [truncate_file read_file].
  - destruct (String.eqb_spec name n) as [-> | _]; [contradiction | reflexivity].
  - destruct (String.eqb_spec n' name) as [-> | Hn']; cbn [read_file].
    + destruct (String.eqb_spec name n) as [-> | _]; [contradiction | reflexivity].
    + now rewrite IH.
Qed.

Lemma read_file_replay (name : string) (evs : list event) :
  forall d : directory,
    read_file name (replay evs d) =
    match last_write name evs with
    | Some f => Some f
    | None => read_file name d
    end.
Proof.
  induction evs as [| ev evs IH]; intros d; [reflexivity |].
  destruct ev; cbn [replay last_write]; try apply IH.
  - rewrite IH. destruct (last_write name evs) as [later |]; [reflexivity |].
    destruct (String.eqb_spec filename name) as [-> | Hne].
    + apply read_file_write_file.
    + apply read_file_write_file_other. congruence.
  - rewrite IH. destruct (last_write name evs) as [later |]; [reflexivity |].
    destruct (String.eqb_spec filename name) as [-> | Hne].
    + apply read_file_truncate_file.
    + apply read_file_truncate_file_other. congruence.
Qed.

(** X14: the directory always agrees with the log, also after an exception
    or when the loop is cut short: a file holds what the last write under
    its name left (the object saved, or a file cut short when that write
    failed), and a name that no write of the run mentions holds what it held
    before. *)
Theorem file_holds_last_object_saved (fuel : nat) (h : Host)
    (api_key : option string) (s : state) (name : string) :
  exists evs,
    log (state_of (main fuel h api_key s)) = log s ++ evs
    /\ read_file name (files (state_of (main fuel h api_key s))) =
       match last_write name evs with
       | Some f => Some f
       | None => read_file name (files s)
       end.
Proof.
  destruct (main_trace fuel h api_key s) as (evs & Hlog & Hfiles & _).
  exists evs. split; [exact Hlog |].
  rewrite Hfiles. apply read_file_replay.
Qed.

(** A write that fails: the file that was there is cut short, the run ends
    with the exception, and the log shows no save. *)
Example failed_write_truncates :
  save_transcripts 3
    {| list_endpoint := list_endpoint Sample.two_pages;
       detail_endpoint := fun _ => Response 500 None;
       now := Sample.december;
       utcoffset := fun _ => 0;
       encodable := fun _ => false |} None
    {| files := [("2023-11-14_QA PlanReview.json", Text Sample.kickoff)]; log := [] |}
  = Crashed UnicodeEncodeError
      {| files := [("2023-11-14_QA PlanReview.json", Unreadable)];
         log := [ListQuery 25 (Some "2023-12-01T00:00:00.000Z");
                 DetailQuery (JStr "a");
                 Truncated "2023-11-14_QA PlanReview.json"] |}.
Proof. reflexivity. Qed.

(** ** The key on the console *)

Lemma take_drop (n : nat) (s : string) : (take n s ++ drop n s)%string = s.
Proof.
  revert s; induction n as [| n IH]; intros [| c s]; cbn [take drop String.append];
    try reflexivity.
  now rewrite IH.
Qed.

Lemma drop_drop (a b : nat) (s : string) : drop b (drop a s) = drop (a + b) s.
Proof.
  revert s; induction a as [| a IH]; intros s.
  - reflexivity.
  - destruct s as [| c s]; cbn [drop Nat.add].
    + now destruct b.
    + apply IH.
Qed.

Lemma drop_all (n : nat) (s : string) :
  (String.length s <= n)%nat -> drop n s = EmptyString.
Proof.
  revert s; induction n as [| n IH]; intros [| c s] H; cbn [drop String.length] in *;
    try reflexivity; try lia.
  apply IH; lia.
Qed.

Lemma app_string_nil_r (s : string) : (s ++ "")%string = s.
Proof.
  induction s as [| c s IH]; [reflexivity |]. cbn [String.append]. now rewrite IH.
Qed.

Lemma key_from_pieces (api_key : string) :
  (String.length api_key <= 10)%nat ->
  (take 5 api_key
   ++ drop (2 * Nat.min 5 (String.length api_key) - String.length api_key)
        (last_chars 5 api_key))%string
  = api_key.
Proof.
  intros Hlen. unfold last_chars. rewrite drop_drop.
  destruct (Nat.le_gt_cases (String.length api_key) 5) as [Hshort | Hlong].
  - rewrite (take_short 5 api_key Hshort).
    rewrite drop_all by lia. apply app_string_nil_r.
  - replace (String.length api_key - 5
             + (2 * Nat.min 5 (String.length api_key) - String.length api_key))%nat
      with 5%nat by lia.
    apply take_drop.
Qed.

Lemma take_length_min (n : nat) (s : string) :
  String.length (take n s) = Nat.min n (String.length s).
Proof.
  revert s; induction n as [| n IH]; intros [| c s]; cbn [take String.length Nat.min];
    try reflexivity.
  now rewrite IH.
Qed.

Lemma app_string_inv_head (a x y : string) :
  (a ++ x)%string = (a ++ y)%string -> x = y.
Proof.
  induction a as [| c a IH]; cbn [String.append]; intros H; [exact H |].
  injection H as H. now apply IH.
Qed.

Lemma app_string_inj (a a' b b' : string) :
  (a ++ b)%string = (a' ++ b')%string ->
  String.length a = String.length a' ->
  a = a' /\ b = b'.
Proof.
  revert a'; induction a as [| c a IH]; intros [| c' a'] H Hlen;
    cbn [String.append String.length] in *; try discriminate Hlen.
  - now split.
  - injection H as -> H. injection Hlen as Hlen.
    destruct (IH a' H Hlen) as [-> ->]. now split.
Qed.

(** X15: the line that announces the key shows its first five and its last
    five characters.  Among keys of one length of at most ten characters
    these pieces overlap or meet, so the line tells the keys apart: two such
    keys that print the same line are the same key.  (The length itself is
    not shown: keys of different lengths can print the same line.) *)
Theorem short_api_key_is_printed_in_full (key1 key2 : string) :
  String.length key1 = String.length key2 ->
  (String.length key1 <= 10)%nat ->
  api_key_banner key1 = api_key_banner key2 ->
  key1 = key2.
Proof.
  intros Hsame Hlen Hline. unfold api_key_banner in Hline.
  apply app_string_inv_head in Hline.
  apply app_string_inj in Hline as [Hhead Htail].
  2:{ now rewrite !take_length_min, Hsame. }
  apply app_string_inv_head in Htail.
  rewrite <- (key_from_pieces key1 Hlen).
  rewrite <- (key_from_pieces key2) by lia.
  now rewrite Hhead, Htail, Hsame.
Qed.

Lemma short_api_key_is_printed_in_full_witness : "k3y-2024" = "k3y-2024".
Proof.
  apply (short_api_key_is_printed_in_full "k3y-2024" "k3y-2024");
    [reflexivity | cbn; lia | reflexivity].
Defined.

Example api_key_banner_short : api_key_banner "k3y-2024" = "Using API key: k3y-2...-2024".
Proof. reflexivity. Qed.

Example api_key_banner_hides_length :
  api_key_banner "k3y-2024" = api_key_banner "k3y-2-2024".
Proof. reflexivity. Qed.
